(** * Phone verification edge functions: a shallow embedding

    The repository holds two Deno edge functions,
    [verification-start] and [verification-verify], and one SQL migration
    with the [handle_new_user] trigger.  Each handler is a request/response
    translator around the Supabase client: it validates its input, asks the
    identity provider to send or redeem a one-time code, and shapes a JSON
    response.

    The embedding follows the source:
    - the three regular-expression literals are kept as regular expressions
      and run by a matcher ([Regex]);
    - every call that leaves the handler (the phone library, the Supabase
      client, [Deno.env], [console]) is an [event] answered by a [world],
      and a handler is a finite program over these events with [throw] and
      [try]/[catch] ([prog]);
    - the trigger is a function on the [profiles] table. *)

From Stdlib Require Import String Ascii List Bool Arith ZArith Lia.
Import ListNotations.
Open Scope string_scope.
Open Scope list_scope.
Open Scope nat_scope.

(** ** Regular expressions

    The fragment of the JavaScript pattern language that the three
    literals of the source use: character classes, sequencing and counted
    repetition.  All three literals are anchored with [^] and [$] and carry
    no flag, so [RegExp.prototype.test] is a whole-string match.  A string
    is its sequence of code units, each an [ascii] here (code units below
    256). *)
Module Regex.

Inductive regex : Type :=
| Chars (ranges : list (ascii * ascii))
| Seq (r1 r2 : regex)
| Repeat (lo hi : nat) (r : regex).

Definition in_range (c : ascii) (rg : ascii * ascii) : bool :=
  (nat_of_ascii (fst rg) <=? nat_of_ascii c) && (nat_of_ascii c <=? nat_of_ascii (snd rg)).

Definition in_class (ranges : list (ascii * ascii)) (c : ascii) : bool :=
  existsb (in_range c) ranges.

(** [iterate step lo hi s]: what is left of [s] after between [lo] and
    [hi] rounds of [step]. *)
Fixpoint iterate (step : list ascii -> list (list ascii)) (lo hi : nat)
         (s : list ascii) : list (list ascii) :=
  match hi with
  | O => if lo =? 0 then [s] else []
  | S hi' =>
      (if lo =? 0 then [s] else [])
        ++ flat_map (iterate step (pred lo) hi') (step s)
  end.

(** [residues r s]: every suffix of [s] that remains after [r] has
    matched a prefix of [s]. *)
Fixpoint residues (r : regex) (s : list ascii) : list (list ascii) :=
  match r with
  | Chars ranges =>
      match s with
      | c :: t => if in_class ranges c then [t] else []
      | [] => []
      end
  | Seq r1 r2 => flat_map (residues r2) (residues r1 s)
  | Repeat lo hi r1 => iterate (residues r1) lo hi s
  end.

Definition is_nil (s : list ascii) : bool :=
  match s with [] => true | _ :: _ => false end.

(** [r] matches the whole of [s]. *)
Definition accepts (r : regex) (s : list ascii) : bool :=
  existsb is_nil (residues r s).

(** [/^r$/.test(s)] *)
Definition test (r : regex) (s : string) : bool :=
  accepts r (list_ascii_of_string s).

Definition lit (c : ascii) : regex := Chars [(c, c)].
(** [\d] without the unicode flag is [[0-9]]. *)
Definition digit : regex := Chars [("0", "9")]%char.

End Regex.

(** ** Values

    A request field is declared [string] by the handlers' interfaces
    ([VerificationRequest], [VerificationConfirmRequest]); at run time the
    key may also be missing or [null], which is what the guards
    [!phone] and [!verification_code] are there for. *)
Inductive jsval : Type :=
| JUndefined
| JNull
| JString (s : string).

(** [!v] is [negb (truthy v)]: [undefined], [null] and [''] are falsy. *)
Definition truthy (v : jsval) : bool :=
  match v with
  | JString s => negb (s =? "")%string
  | JUndefined | JNull => false
  end.

(** The coercion [RegExp.prototype.test] applies to its argument. *)
Definition ToString (v : jsval) : string :=
  match v with
  | JUndefined => "undefined"
  | JNull => "null"
  | JString s => s
  end.

(** The JSON text a handler writes with [JSON.stringify], as the value it
    denotes; members are kept in the order the object literal lists them. *)
Unset Elimination Schemes.
Inductive json : Type :=
| Jnull
| Jnumber (n : Z)
| Jstring (s : string)
| Jobject (members : list (string * json)).
Set Elimination Schemes.

(** The member [k: v] of an object literal under [JSON.stringify]: a
    member whose value is [undefined] is left out. *)
Definition stringify_member (k : string) (v : jsval) : list (string * json) :=
  match v with
  | JUndefined => []
  | JNull => [(k, Jnull)]
  | JString s => [(k, Jstring s)]
  end.

(** [x ?? null] for a nullable text column. *)
Definition or_null (x : option string) : json :=
  match x with
  | Some s => Jstring s
  | None => Jnull
  end.

(** A thrown JavaScript value. *)
Record exn : Type := { exn_name : string; exn_message : string }.

Inductive result (A : Type) : Type :=
| Returns (a : A)
| Throws (e : exn).
Arguments Returns {A} a.
Arguments Throws {A} e.

(** ** Requests and responses *)

(** What [await req.json()] followed by the destructuring of the handler
    gives: the body is no JSON text ([req.json()] rejects), it is the JSON
    value [null] (destructuring throws a [TypeError]), or it yields the
    fields of the handler's request interface [B]. *)
Inductive parsed (B : Type) : Type :=
| Unparseable (e : exn)
| ParsedNull
| Parsed (b : B).
Arguments Unparseable {B} e.
Arguments ParsedNull {B}.
Arguments Parsed {B} b.

Record Request (B : Type) : Type := { method : string; json_body : parsed B }.
Arguments method {B} r.
Arguments json_body {B} r.

Inductive payload : Type :=
| Text (s : string)
| Json (v : json).

Record Response : Type :=
  { status : nat; headers : list (string * string); body : payload }.

Definition corsHeaders : list (string * string) :=
  [ ("Access-Control-Allow-Origin", "*");
    ("Access-Control-Allow-Headers", "authorization, x-client-info, apikey, content-type") ].

(** [new Response('ok', { headers: corsHeaders })]: the status defaults to 200. *)
Definition preflight_response : Response :=
  {| status := 200; headers := corsHeaders; body := Text "ok" |}.

(** [new Response(JSON.stringify(v), { status, headers: { ...corsHeaders,
    'Content-Type': 'application/json' } })] *)
Definition json_response (code : nat) (v : json) : Response :=
  {| status := code;
     headers := corsHeaders ++ [("Content-Type", "application/json")];
     body := Json v |}.

Definition error_body (msg : string) : json := Jobject [("error", Jstring msg)].

(** ** The libraries the handlers call *)

(** libphonenumber-js' parsed number. *)
Record PhoneNumber : Type :=
  { countryCallingCode : string; nationalNumber : string }.

(** Modelled from the spec: the provider's identity record, whose type
    declaration (supabase-js) is not part of the repository; the handler
    reads [id] and [phone], both strings in its response schema. *)
Record User : Type := { user_id : string; user_phone : string }.

(** Modelled from the spec: the provider's session object, with the four
    members the wire contract lists. *)
Record Session : Type :=
  { access_token : string;
    refresh_token : string;
    expires_in : Z;
    token_type : string }.

Definition json_of_session (s : Session) : json :=
  Jobject [ ("access_token", Jstring (access_token s));
            ("refresh_token", Jstring (refresh_token s));
            ("expires_in", Jnumber (expires_in s));
            ("token_type", Jstring (token_type s)) ].

Record AuthError : Type :=
  { auth_error_message : string; auth_error_status : nat; auth_error_code : string }.

(** [{ data: { user, session }, error }] of [auth.verifyOtp]. *)
Record AuthResponse : Type :=
  { data_user : option User;
    data_session : option Session;
    auth_error : option AuthError }.

(** [{ data, error }] of [auth.signInWithOtp]; the handler reads [error] only. *)
Record OtpResponse : Type := { otp_error : option AuthError }.

(** Modelled from the spec: [Profile] of [_shared/types.ts], which is not
    among the sources; the five optional text columns the handler selects. *)
Record Profile : Type :=
  { email : option string;
    first_name : option string;
    last_name : option string;
    phone : option string;
    correspondence_address : option string }.

Record PostgrestError : Type :=
  { pg_message : string; pg_details : string; pg_hint : string; pg_code : string }.

(** What awaiting [.maybeSingle<Profile>()] resolves to: the row, or no
    row, with no error; or an error with [data: null].  The query builder
    resolves also when the request fails (it rejects only under
    [throwOnError], which the handler does not set). *)
Inductive PostgrestResponse : Type :=
| PostgrestSuccess (data : option Profile)
| PostgrestFailure (error : PostgrestError).

Definition response_data (r : PostgrestResponse) : option Profile :=
  match r with
  | PostgrestSuccess data => data
  | PostgrestFailure _ => None
  end.

Definition response_error (r : PostgrestResponse) : option PostgrestError :=
  match r with
  | PostgrestSuccess _ => None
  | PostgrestFailure e => Some e
  end.

(** The third argument of the second [createClient] call. *)
Record ClientOptions : Type :=
  { global_Authorization : string;
    persistSession : bool;
    detectSessionInUrl : bool }.

Record SupabaseClient : Type :=
  { supabaseUrl : string;
    supabaseKey : string;
    options : option ClientOptions }.

Inductive log_level : Type := LogWarn | LogError.

Inductive logged : Type :=
| LoggedExn (e : exn)
| LoggedAuthError (e : AuthError)
| LoggedPostgrestError (e : PostgrestError).

(** ** Events and programs *)

(** The calls that leave a handler, each with the type of its answer.  A
    call that may throw (or whose promise may reject) answers a [result]. *)
Variant event : Type -> Type :=
| EnvGet (name : string) : event (option string)
| ParsePhoneNumber (text : string) : event (result (option PhoneNumber))
| PhoneNumberIsValid (pn : PhoneNumber) : event (result bool)
| IsValidPhoneNumber (text : string) : event (result bool)
| SignInWithOtp (c : SupabaseClient) (phone_arg : jsval) : event (result OtpResponse)
| VerifyOtp (c : SupabaseClient) (phone_arg token : jsval) (type : string)
  : event (result AuthResponse)
| SelectProfile (c : SupabaseClient) (columns : string) (id : string)
  : event PostgrestResponse
| Console (level : log_level) (label : string) (what : logged) : event unit.

Inductive prog (A : Type) : Type :=
| Ret (a : A)
| Throw (e : exn)
| Vis (X : Type) (ev : event X) (k : X -> prog A).
Arguments Ret {A} a.
Arguments Throw {A} e.
Arguments Vis {A X} ev k.

Fixpoint bind {A B : Type} (p : prog A) (f : A -> prog B) : prog B :=
  match p with
  | Ret a => f a
  | Throw e => Throw e
  | Vis ev k => Vis ev (fun x => bind (k x) f)
  end.

(** [try { p } catch (error) { h error }] *)
Fixpoint try_catch {A : Type} (p : prog A) (h : exn -> prog A) : prog A :=
  match p with
  | Ret a => Ret a
  | Throw e => h e
  | Vis ev k => Vis ev (fun x => try_catch (k x) h)
  end.

Definition call {X : Type} (ev : event X) : prog X := Vis ev (fun x => Ret x).

(** A call whose failure is an exception at the call site. *)
Definition attempt {X : Type} (ev : event (result X)) : prog X :=
  Vis ev (fun r => match r with Returns x => Ret x | Throws e => Throw e end).

Declare Scope prog_scope.
Delimit Scope prog_scope with prog.
Notation "x <- p ;; q" := (bind p (fun x => q))
  (at level 61, p at next level, right associativity) : prog_scope.
Notation "p ;; q" := (bind p (fun _ => q))
  (at level 61, right associativity) : prog_scope.
Open Scope prog_scope.

(** The environment of a run: an answer to every call. *)
Definition world : Type := forall X : Type, event X -> X.

(** What the program returns or throws in a world. *)
Fixpoint exec {A : Type} (w : world) (p : prog A) : result A :=
  match p with
  | Ret a => Returns a
  | Throw e => Throws e
  | Vis ev k => exec w (k (w _ ev))
  end.

Inductive called : Type := Called (X : Type) (ev : event X).
Arguments Called {X} ev.

(** The calls the program makes in a world, in order. *)
Fixpoint calls {A : Type} (w : world) (p : prog A) : list called :=
  match p with
  | Ret _ | Throw _ => []
  | Vis ev k => Called ev :: calls w (k (w _ ev))
  end.


(** ** createClient

    supabase-js' constructor performs no request; it throws when it
    refuses the URL or the key (an empty one at least).
    [client_config_error] is the error it throws for a URL and a key, if
    any; the options play no part in it. *)
Section CreateClient.
Variable client_config_error : string -> string -> option exn.

Definition createClient (url key : string) (opts : option ClientOptions)
  : prog SupabaseClient :=
  match client_config_error url key with
  | Some e => Throw e
  | None => Ret {| supabaseUrl := url; supabaseKey := key; options := opts |}
  end.
End CreateClient.

(** [Deno.env.get(name) ?? ''] *)
Definition env_or_empty (name : string) : prog string :=
  v <- call (EnvGet name) ;;
  Ret (match v with Some s => s | None => "" end).

(** ** verification-verify/index.ts *)
Module VerificationVerify.

Record VerificationConfirmRequest : Type :=
  { phone_number : jsval; verification_code : jsval }.

(** [/^\+[1-9]\d{1,14}$/] *)
Definition PHONE_REGEX : Regex.regex :=
  Regex.Seq (Regex.lit "+")
    (Regex.Seq (Regex.Chars [("1", "9")]%char)
       (Regex.Repeat 1 14 Regex.digit)).

Definition validatePhoneNumber (phone : jsval) : bool :=
  Regex.test PHONE_REGEX (ToString phone).

(** [!verification_code || verification_code.length !== 6] *)
Definition code_malformed (verification_code : jsval) : bool :=
  negb (truthy verification_code)
  || match verification_code with
     | JString s => negb (String.length s =? 6)
     | JUndefined | JNull => true
     end.

(** [userProfile?.f ?? null] *)
Definition field (f : Profile -> option string) (userProfile : option Profile) : json :=
  match userProfile with
  | Some row => or_null (f row)
  | None => Jnull
  end.

Definition profile_json (userProfile : option Profile) : json :=
  Jobject [ ("email", field email userProfile);
            ("first_name", field first_name userProfile);
            ("last_name", field last_name userProfile);
            ("phone", field phone userProfile);
            ("correspondence_address", field correspondence_address userProfile) ].

Definition success_json (session : Session) (user : User) (userProfile : option Profile)
  : json :=
  Jobject [ ("message", Jstring "Phone verification successful");
            ("session", json_of_session session);
            ("user", Jobject [ ("id", Jstring (user_id user));
                               ("phone", Jstring (user_phone user));
                               ("profile", profile_json userProfile) ]) ].

Definition authed_options (session : Session) : ClientOptions :=
  {| global_Authorization := "Bearer " ++ access_token session;
     persistSession := false;
     detectSessionInUrl := false |}.

Definition profile_columns : string :=
  "email, first_name, last_name, phone, correspondence_address".

Section Handler.
Variable client_config_error : string -> string -> option exn.

(** The body of the inner [try], from the answer of [verifyOtp] on. *)
Definition after_verifyOtp (r : AuthResponse) : prog Response :=
  match auth_error r with
  | Some error =>
      call (Console LogError "Supabase Auth verification error:" (LoggedAuthError error)) ;;
      Ret (json_response 400 (error_body "Invalid verification code"))
  | None =>
      match data_session r with
      | None =>
          Ret (json_response 500 (error_body "Verification failed. No session created."))
      | Some session =>
          match data_user r with
          | None =>
              Ret (json_response 500
                     (error_body "Verification failed. No user data available."))
          | Some user =>
              url <- env_or_empty "SUPABASE_URL" ;;
              key <- env_or_empty "SUPABASE_ANON_KEY" ;;
              authedClient <-
                createClient client_config_error url key (Some (authed_options session)) ;;
              response <- call (SelectProfile authedClient profile_columns (user_id user)) ;;
              match response_error response with
              | Some userProfileError =>
                  call (Console LogWarn "Error fetching profiles:"
                          (LoggedPostgrestError userProfileError))
              | None => Ret tt
              end ;;
              Ret (json_response 200 (success_json session user (response_data response)))
          end
      end
  end.

(** The body of the outer [try], from the parsed request on. *)
Definition verify (request : VerificationConfirmRequest) : prog Response :=
  if negb (validatePhoneNumber (phone_number request)) then
    Ret (json_response 400 (error_body "Invalid phone number format"))
  else if code_malformed (verification_code request) then
    Ret (json_response 400 (error_body "Invalid verification code. Code must be 6 digits."))
  else
    url <- env_or_empty "SUPABASE_URL" ;;
    key <- env_or_empty "SUPABASE_ANON_KEY" ;;
    supabaseClient <- createClient client_config_error url key None ;;
    try_catch
      (r <- attempt (VerifyOtp supabaseClient (phone_number request)
                       (verification_code request) "sms") ;;
       after_verifyOtp r)
      (fun error =>
         call (Console LogError "Unexpected error during verifyOtp:" (LoggedExn error)) ;;
         Ret (json_response 500 (error_body "Verification failed. Please try again."))).

(** [const { phone_number, verification_code } = await req.json()] *)
Definition read_request (req : Request VerificationConfirmRequest)
  : prog VerificationConfirmRequest :=
  match json_body req with
  | Unparseable e => Throw e
  | ParsedNull =>
      Throw {| exn_name := "TypeError";
               exn_message := "Cannot destructure property 'phone_number' of null" |}
  | Parsed request => Ret request
  end.

Definition handler (req : Request VerificationConfirmRequest) : prog Response :=
  if (method req =? "OPTIONS")%string then Ret preflight_response
  else if negb (method req =? "POST")%string then
    Ret (json_response 405 (error_body "Method not allowed"))
  else
    try_catch
      (request <- read_request req ;; verify request)
      (fun error =>
         call (Console LogError "Unexpected error:" (LoggedExn error)) ;;
         Ret (json_response 500 (error_body "Internal server error"))).
End Handler.

End VerificationVerify.

(** ** verification-start/index.ts *)
Module VerificationStart.

Record VerificationRequest : Type := { phone_number : jsval }.

(** [{ isValid: boolean; error?: string; isTestNumber?: boolean }] *)
Record validation : Type :=
  { isValid : bool; error : option string; isTestNumber : option bool }.

Definition invalid (msg : string) : validation :=
  {| isValid := false; error := Some msg; isTestNumber := None |}.

Definition valid (test_number : bool) : validation :=
  {| isValid := true; error := None; isTestNumber := Some test_number |}.

(** [/^\+1234567\d{3}$/] *)
Definition TEST_NUMBER_REGEX : Regex.regex :=
  Regex.Seq (Regex.lit "+")
    (Regex.Seq (Regex.lit "1") (Regex.Seq (Regex.lit "2") (Regex.Seq (Regex.lit "3")
    (Regex.Seq (Regex.lit "4") (Regex.Seq (Regex.lit "5") (Regex.Seq (Regex.lit "6")
    (Regex.Seq (Regex.lit "7") (Regex.Repeat 3 3 Regex.digit)))))))).

(** [/^\+[89]{10,11}$/] *)
Definition EIGHT_NINE_REGEX : Regex.regex :=
  Regex.Seq (Regex.lit "+")
    (Regex.Repeat 10 11 (Regex.Chars [("8", "8"); ("9", "9")]%char)).

Definition isLikelyTestNumber (phone : string) : bool :=
  Regex.test TEST_NUMBER_REGEX phone || Regex.test EIGHT_NINE_REGEX phone.

(** The [try] block of [validatePhoneNumber] and its [catch]. *)
Definition validate_with_library (phone : string) : prog validation :=
  let likely := isLikelyTestNumber phone in
  try_catch
    (phoneNumber <- attempt (ParsePhoneNumber phone) ;;
     match phoneNumber with
     | None =>
         if likely then Ret (valid true)
         else Ret (invalid "Invalid phone number format")
     | Some pn =>
         ok <- attempt (PhoneNumberIsValid pn) ;;
         if negb ok then
           if likely then Ret (valid true)
           else Ret (invalid "Invalid phone number for the specified country")
         else
           ok' <- attempt (IsValidPhoneNumber phone) ;;
           if negb ok' && negb likely then
             Ret (invalid "Phone number format is not valid")
           else Ret (valid likely)
     end)
    (fun error =>
       call (Console LogWarn "Phone validation error:" (LoggedExn error)) ;;
       if likely then Ret (valid true)
       else Ret (invalid "Invalid phone number format")).

Definition validatePhoneNumber (phone : jsval) : prog validation :=
  match phone with
  | JUndefined | JNull => Ret (invalid "Phone number is required")
  | JString s =>
      if negb (truthy phone) then Ret (invalid "Phone number is required")
      else if negb (String.prefix "+" s) then
        Ret (invalid "Phone number must include country code (start with +)")
      else validate_with_library s
  end.

(** [validation.error || '...']: an absent or empty message gives way to
    the default. *)
Definition error_or_default (e : option string) : string :=
  match e with
  | Some msg =>
      if (msg =? "")%string
      then "Invalid phone number format. Please use international format (e.g., +1234567890)"
      else msg
  | None => "Invalid phone number format. Please use international format (e.g., +1234567890)"
  end.

Definition send_failed : Response :=
  json_response 500 (error_body "Failed to send verification code. Please try again.").

Section Handler.
Variable client_config_error : string -> string -> option exn.

(** The body of the outer [try], from the parsed request on. *)
Definition start (request : VerificationRequest) : prog Response :=
  validation <- validatePhoneNumber (phone_number request) ;;
  if negb (isValid validation) then
    Ret (json_response 400 (error_body (error_or_default (error validation))))
  else
    url <- env_or_empty "SUPABASE_URL" ;;
    key <- env_or_empty "SUPABASE_ANON_KEY" ;;
    supabaseClient <- createClient client_config_error url key None ;;
    try_catch
      (r <- attempt (SignInWithOtp supabaseClient (phone_number request)) ;;
       match otp_error r with
       | Some error =>
           call (Console LogError "Supabase Auth error:" (LoggedAuthError error)) ;;
           Ret send_failed
       | None =>
           Ret (json_response 200
                  (Jobject (("message", Jstring "Verification code sent successfully")
                              :: stringify_member "phone_number" (phone_number request))))
       end)
      (fun error =>
         call (Console LogError "Unexpected error during signInWithOtp:" (LoggedExn error)) ;;
         Ret send_failed).

(** [const { phone_number } = await req.json()] *)
Definition read_request (req : Request VerificationRequest) : prog VerificationRequest :=
  match json_body req with
  | Unparseable e => Throw e
  | ParsedNull =>
      Throw {| exn_name := "TypeError";
               exn_message := "Cannot destructure property 'phone_number' of null" |}
  | Parsed request => Ret request
  end.

Definition handler (req : Request VerificationRequest) : prog Response :=
  if (method req =? "OPTIONS")%string then Ret preflight_response
  else if negb (method req =? "POST")%string then
    Ret (json_response 405 (error_body "Method not allowed"))
  else
    try_catch
      (request <- read_request req ;; start request)
      (fun error =>
         call (Console LogError "Unexpected error:" (LoggedExn error)) ;;
         Ret (json_response 500 (error_body "Internal server error"))).
End Handler.

End VerificationStart.

(** ** The migration: table [public.profiles] and trigger [handle_new_user] *)

Definition uuid : Type := string.
Definition timestamptz : Type := Z.

Module auth.
(** The columns of a row of [auth.users] that the trigger reads. *)
Record users : Type :=
  { id : uuid; email : option string; phone : option string }.
End auth.

Module public.

(** A row of [public.profiles]; [None] is SQL [NULL]. *)
Record profiles : Type :=
  { id : uuid;
    first_name : option string;
    last_name : option string;
    email : option string;
    phone : option string;
    correspondence_address : option string;
    created_at : timestamptz;
    updated_at : timestamptz }.

(** [insert into public.profiles (id, email, phone) values (...)]: the
    other text columns are [NULL] and both timestamps default to [now()]. *)
Definition new_row (now : timestamptz) (i : uuid) (e p : option string) : profiles :=
  {| id := i;
     first_name := None;
     last_name := None;
     email := e;
     phone := p;
     correspondence_address := None;
     created_at := now;
     updated_at := now |}.

(** Whether a row of the table already holds the primary key [i]. *)
Definition conflict (i : uuid) (table : list profiles) : bool :=
  existsb (fun row => (id row =? i)%string) table.

(** [insert ... on conflict (id) do nothing] *)
Definition insert_on_conflict_do_nothing (row : profiles) (table : list profiles)
  : list profiles :=
  if conflict (id row) table then table else table ++ [row].

(** The trigger function: the table after it ran, and the row it returns. *)
Definition handle_new_user (now : timestamptz) (new : auth.users) (table : list profiles)
  : list profiles * auth.users :=
  (insert_on_conflict_do_nothing
     (new_row now (auth.id new) (auth.email new) (auth.phone new)) table,
   new).

(** The number of rows of the table with primary key [i]. *)
Definition rows_with_id (i : uuid) (table : list profiles) : nat :=
  List.length (filter (fun row => (id row =? i)%string) table).

(** The primary-key constraint of the table. *)
Definition primary_key (table : list profiles) : Prop :=
  NoDup (map id table).

(** The two tables together.  [on_auth_user_created] runs the trigger
    function after each row inserted into [auth.users]; an insert that
    repeats a primary key of [auth.users] fails and changes nothing. *)
Record database : Type :=
  { auth_users : list auth.users; public_profiles : list profiles }.

Definition insert_auth_user (now : timestamptz) (new : auth.users) (db : database)
  : database :=
  if existsb (fun u => (auth.id u =? auth.id new)%string) (auth_users db) then db
  else {| auth_users := auth_users db ++ [new];
          public_profiles := fst (handle_new_user now new (public_profiles db)) |}.

(** The table keeps its primary key, and every identity has exactly one
    profile row. *)
Definition one_profile_per_identity (db : database) : Prop :=
  primary_key (public_profiles db)
  /\ forall u, In u (auth_users db) -> rows_with_id (auth.id u) (public_profiles db) = 1.

End public.

(** ** Worlds to run the handlers in *)

Definition sample_env (name : string) : option string :=
  if (name =? "SUPABASE_URL")%string then Some "http://127.0.0.1:54321"
  else if (name =? "SUPABASE_ANON_KEY")%string then Some "anon-key"
  else None.

(** The answers that differ from one sample world to the next. *)
Record answers : Type :=
  { parse_answer : string -> result (option PhoneNumber);
    send_answer : result OtpResponse;
    redeem_answer : result AuthResponse;
    select_answer : PostgrestResponse }.

Definition world_of (a : answers) : world :=
  fun X ev =>
    match ev in event X return X with
    | EnvGet name => sample_env name
    | ParsePhoneNumber text => parse_answer a text
    | PhoneNumberIsValid _ => Returns true
    | IsValidPhoneNumber _ => Returns true
    | SignInWithOtp _ _ => send_answer a
    | VerifyOtp _ _ _ _ => redeem_answer a
    | SelectProfile _ _ _ => select_answer a
    | Console _ _ _ => tt
    end.

(** supabase-js refuses an empty URL and an empty key. *)
Definition sample_config_error (url key : string) : option exn :=
  if (url =? "")%string then
    Some {| exn_name := "Error"; exn_message := "supabaseUrl is required." |}
  else if (key =? "")%string then
    Some {| exn_name := "Error"; exn_message := "supabaseKey is required." |}
  else None.

(** A phone library that recognises no number at all. *)
Definition parse_nothing (text : string) : result (option PhoneNumber) := Returns None.

Definition quiet_answers : answers :=
  {| parse_answer := parse_nothing;
     send_answer := Returns {| otp_error := None |};
     redeem_answer := Returns {| data_user := None; data_session := None; auth_error := None |};
     select_answer := PostgrestSuccess None |}.

(** [Deno.env.get(name) ?? ''] as the world answers it. *)
Definition env_value (w : world) (name : string) : string :=
  match w _ (EnvGet name) with
  | Some s => s
  | None => ""
  end.

(** The client either handler builds first, from the environment alone. *)
Definition anon_client (w : world) : SupabaseClient :=
  {| supabaseUrl := env_value w "SUPABASE_URL";
     supabaseKey := env_value w "SUPABASE_ANON_KEY";
     options := None |}.

(** The client the verify handler builds from the new session. *)
Definition authed_client (w : world) (session : Session) : SupabaseClient :=
  {| supabaseUrl := env_value w "SUPABASE_URL";
     supabaseKey := env_value w "SUPABASE_ANON_KEY";
     options := Some (VerificationVerify.authed_options session) |}.

(** [createClient] accepts the configured URL and key. *)
Definition configured (client_config_error : string -> string -> option exn) (w : world)
  : Prop :=
  client_config_error (env_value w "SUPABASE_URL") (env_value w "SUPABASE_ANON_KEY") = None.

(** Sample data: the test number of the handlers' documentation and its code. *)
Definition sample_session : Session :=
  {| access_token := "access"; refresh_token := "refresh";
     expires_in := 3600; token_type := "bearer" |}.

Definition sample_user : User :=
  {| user_id := "7f1c"; user_phone := "1234567890" |}.

Definition sample_profile : Profile :=
  {| email := None; first_name := Some "Luiza"; last_name := None;
     phone := Some "1234567890"; correspondence_address := None |}.

Definition sample_auth_error : AuthError :=
  {| auth_error_message := "Token has expired or is invalid";
     auth_error_status := 403;
     auth_error_code := "otp_expired" |}.


Definition verify_request (phone code : jsval) : Request VerificationVerify.VerificationConfirmRequest :=
  {| method := "POST";
     json_body := Parsed {| VerificationVerify.phone_number := phone;
                            VerificationVerify.verification_code := code |} |}.

Definition start_request (phone : jsval) : Request VerificationStart.VerificationRequest :=
  {| method := "POST";
     json_body := Parsed {| VerificationStart.phone_number := phone |} |}.

Definition redeemed (session : option Session) (user : option User) : result AuthResponse :=
  Returns {| data_user := user; data_session := session; auth_error := None |}.

(** The provider redeems the code; the profile read answers [read]. *)
Definition verified_answers (read : PostgrestResponse) : answers :=
  {| parse_answer := parse_nothing;
     send_answer := Returns {| otp_error := None |};
     redeem_answer := redeemed (Some sample_session) (Some sample_user);
     select_answer := read |}.

(** The provider answers the redeem call with [r]. *)
Definition redeem_answers (r : result AuthResponse) : answers :=
  {| parse_answer := parse_nothing;
     send_answer := Returns {| otp_error := None |};
     redeem_answer := r;
     select_answer := PostgrestSuccess None |}.

(** The provider answers the send call with [r]. *)
Definition send_answers (r : result OtpResponse) : answers :=
  {| parse_answer := parse_nothing;
     send_answer := r;
     redeem_answer := redeemed None None;
     select_answer := PostgrestSuccess None |}.

(** What [req.json()] rejects with on the body [not json]. *)
Definition syntax_error : exn :=
  {| exn_name := "SyntaxError"; exn_message := "Unexpected token 'o', 'not json' is not valid JSON" |}.

(** What a failed request to the provider is thrown as. *)
Definition network_error : exn :=
  {| exn_name := "TypeError"; exn_message := "error sending request" |}.

(** A first identity and the table with its profile row. *)
Definition sample_identity : auth.users :=
  {| auth.id := "7f1c"; auth.email := None; auth.phone := Some "1234567890" |}.

(** ** Vocabulary of the statements *)

Definition is_digit (c : ascii) : bool :=
  (48 <=? nat_of_ascii c) && (nat_of_ascii c <=? 57).

Definition is_8_or_9 (c : ascii) : bool :=
  (c =? "8")%char || (c =? "9")%char.

(** [+1234567] followed by exactly three digits. *)
Definition test_number_shape (s : string) : Prop :=
  exists ds,
    s = ("+1234567" ++ string_of_list_ascii ds)%string
    /\ List.length ds = 3
    /\ forallb is_digit ds = true.

(** [+] followed by ten or eleven characters, each of them [8] or [9]. *)
Definition eights_and_nines_shape (s : string) : Prop :=
  exists ds,
    s = String "+" (string_of_list_ascii ds)
    /\ 10 <= List.length ds <= 11
    /\ forallb is_8_or_9 ds = true.

(** [+] followed by ten or eleven digits, the first of them [8] or [9]. *)
Definition digits_from_8_or_9_shape (s : string) : Prop :=
  exists c ds,
    s = String "+" (String c (string_of_list_ascii ds))
    /\ is_8_or_9 c = true
    /\ forallb is_digit ds = true
    /\ 10 <= S (List.length ds) <= 11.

(** A profile column as the verify handler reports it: the text of the
    row that was read, and [null] when the column is unset, when there is
    no row, and when the read failed. *)
Definition column (f : Profile -> option string) (read : PostgrestResponse) : json :=
  match read with
  | PostgrestSuccess (Some row) =>
      match f row with
      | Some text => Jstring text
      | None => Jnull
      end
  | PostgrestSuccess None => Jnull
  | PostgrestFailure _ => Jnull
  end.

(** The call by which the verify handler redeems the code. *)
Definition redeem_call (w : world) (request : VerificationVerify.VerificationConfirmRequest)
  : event (result AuthResponse) :=
  VerifyOtp (anon_client w)
    (VerificationVerify.phone_number request)
    (VerificationVerify.verification_code request) "sms".

(** The call by which the verify handler reads the profile row. *)
Definition profile_read (w : world) (session : Session) (user : User) : event PostgrestResponse :=
  SelectProfile (authed_client w session) VerificationVerify.profile_columns (user_id user).

(** The call by which the start handler asks for a code to be sent. *)
Definition send_call (w : world) (request : VerificationStart.VerificationRequest)
  : event (result OtpResponse) :=
  SignInWithOtp (anon_client w) (VerificationStart.phone_number request).

(** The phone library does not vouch for [s]: it finds no number, finds
    one it calls invalid, or throws on the way. *)
Definition library_rejects (w : world) (s : string) : Prop :=
  match w _ (ParsePhoneNumber s) with
  | Returns (Some pn) =>
      match w _ (PhoneNumberIsValid pn) with
      | Returns true =>
          match w _ (IsValidPhoneNumber s) with
          | Returns true => False
          | Returns false | Throws _ => True
          end
      | Returns false | Throws _ => True
      end
  | Returns None | Throws _ => True
  end.

Definition is_nonzero_digit (c : ascii) : bool :=
  (49 <=? nat_of_ascii c) && (nat_of_ascii c <=? 57).

(** [+], a digit from 1 to 9, then one to fourteen digits. *)
Definition international_shape (s : string) : Prop :=
  exists c ds,
    s = String "+" (String c (string_of_list_ascii ds))
    /\ is_nonzero_digit c = true
    /\ 1 <= List.length ds <= 14
    /\ forallb is_digit ds = true.

(** ** Reading a run's calls *)

(** The profile reads among the calls of a run, each with its client, the
    columns it selects and the id it filters on. *)
Definition profile_reads (l : list called) : list (SupabaseClient * string * string) :=
  flat_map (fun c => match c with
                     | Called (SelectProfile client columns id) => [(client, columns, id)]
                     | Called _ => []
                     end) l.

(** The redeem calls among the calls of a run. *)
Definition redeems (l : list called) : list (SupabaseClient * jsval * jsval * string) :=
  flat_map (fun c => match c with
                     | Called (VerifyOtp client phone token type) => [(client, phone, token, type)]
                     | Called _ => []
                     end) l.

(** The send calls among the calls of a run. *)
Definition sends (l : list called) : list (SupabaseClient * jsval) :=
  flat_map (fun c => match c with
                     | Called (SignInWithOtp client phone) => [(client, phone)]
                     | Called _ => []
                     end) l.

(** A world with no environment variable set. *)
Definition unconfigured_world : world :=
  fun X ev =>
    match ev in event X return X with
    | EnvGet _ => None
    | ParsePhoneNumber _ => Returns None
    | PhoneNumberIsValid _ => Returns true
    | IsValidPhoneNumber _ => Returns true
    | SignInWithOtp _ _ => Returns {| otp_error := None |}
    | VerifyOtp _ _ _ _ => redeemed (Some sample_session) (Some sample_user)
    | SelectProfile _ _ _ => PostgrestSuccess None
    | Console _ _ _ => tt
    end.

(** The statuses the handlers answer with. *)
Definition handler_status (n : nat) : bool :=
  (n =? 200) || (n =? 400) || (n =? 405) || (n =? 500).



(** ** The migration: row level security, [set_updated_at], the cascade *)
Module policies.

(** [auth.uid()]: the id of the caller's identity, [None] (SQL [NULL]) for
    a caller without one. *)
Definition caller : Type := option uuid.

(** [auth.uid() = id], as a policy reads it: [NULL] is not true. *)
Definition is_owner (uid : caller) (row : public.profiles) : bool :=
  match uid with
  | Some u => (u =? public.id row)%string
  | None => false
  end.

(** The policies of a table, by command: the [using] expressions for
    [select] and [delete], the [with check] expressions for [insert], and
    both for [update]. *)
Record policy_set : Type :=
  { for_select : list (caller -> public.profiles -> bool);
    for_insert : list (caller -> public.profiles -> bool);
    for_update : list ((caller -> public.profiles -> bool)
                       * (caller -> public.profiles -> bool));
    for_delete : list (caller -> public.profiles -> bool) }.

(** The three [create policy] statements of the migration; none is
    declared for [delete]. *)
Definition profiles_policies : policy_set :=
  {| for_select := [is_owner];
     for_insert := [is_owner];
     for_update := [(is_owner, is_owner)];
     for_delete := [] |}.

(** With row level security enabled, a command reaches a row when one of
    the policies declared for the command holds; with no policy, none. *)
Definition permitted (ps : list (caller -> public.profiles -> bool))
           (uid : caller) (row : public.profiles) : bool :=
  existsb (fun p => p uid row) ps.

(** [set_updated_at()]: [new.updated_at = now(); return new]. *)
Definition set_updated_at (now : timestamptz) (new : public.profiles) : public.profiles :=
  {| public.id := public.id new;
     public.first_name := public.first_name new;
     public.last_name := public.last_name new;
     public.email := public.email new;
     public.phone := public.phone new;
     public.correspondence_address := public.correspondence_address new;
     public.created_at := public.created_at new;
     public.updated_at := now |}.

(** [select ... from public.profiles where condition], as the caller [uid]. *)
Definition select_as (uid : caller) (condition : public.profiles -> bool)
           (table : list public.profiles) : list public.profiles :=
  filter (fun row => permitted (for_select profiles_policies) uid row && condition row) table.

(** The rows an [update ... where condition] of the caller reaches. *)
Definition reached_by_update (uid : caller) (condition : public.profiles -> bool)
           (row : public.profiles) : bool :=
  permitted (for_select profiles_policies) uid row
  && permitted (map fst (for_update profiles_policies)) uid row
  && condition row.

(** [update public.profiles set ... where condition], as the caller [uid]:
    each row reached gets the assignments, then the [before update] trigger;
    a new row that fails the [with check] fails the statement ([None]).
    The primary key and the foreign key are not tested here: the check pins
    the id of every new row to the id of the old one. *)
Definition update_as (uid : caller) (now : timestamptz)
           (condition : public.profiles -> bool)
           (assign : public.profiles -> public.profiles)
           (table : list public.profiles) : option (list public.profiles) :=
  let new_of row := set_updated_at now (assign row) in
  if forallb (fun row => negb (reached_by_update uid condition row)
                         || permitted (map snd (for_update profiles_policies)) uid (new_of row))
             table
  then Some (map (fun row => if reached_by_update uid condition row then new_of row else row)
               table)
  else None.

(** [insert into public.profiles values (row)], as the caller [uid]: the
    [with check], the primary key and the foreign key each fail the
    statement ([None]). *)
Definition insert_as (uid : caller) (row : public.profiles) (db : public.database)
  : option public.database :=
  if permitted (for_insert profiles_policies) uid row
     && negb (public.conflict (public.id row) (public.public_profiles db))
     && existsb (fun u => (auth.id u =? public.id row)%string) (public.auth_users db)
  then Some {| public.auth_users := public.auth_users db;
               public.public_profiles := public.public_profiles db ++ [row] |}
  else None.

(** [delete from public.profiles where condition], as the caller [uid]. *)
Definition delete_as (uid : caller) (condition : public.profiles -> bool)
           (table : list public.profiles) : list public.profiles :=
  filter (fun row => negb (permitted (for_select profiles_policies) uid row
                           && permitted (for_delete profiles_policies) uid row
                           && condition row)) table.

(** [delete from auth.users where id = i]: [on delete cascade] takes the
    profile rows that reference the identity with it. *)
Definition delete_auth_user (i : uuid) (db : public.database) : public.database :=
  {| public.auth_users :=
       filter (fun u => negb (auth.id u =? i)%string) (public.auth_users db);
     public.public_profiles :=
       filter (fun row => negb (public.id row =? i)%string) (public.public_profiles db) |}.

(** The foreign key of [public.profiles]: every row references an identity. *)
Definition foreign_key (db : public.database) : Prop :=
  forall row, In row (public.public_profiles db) ->
              exists u, In u (public.auth_users db) /\ auth.id u = public.id row.

(** One statement against the two tables: the provider creates or deletes
    an identity, or a caller under row level security inserts, updates or
    deletes profile rows. *)
Inductive step (db : public.database) : public.database -> Prop :=
| identity_created (now : timestamptz) (new : auth.users) :
    step db (public.insert_auth_user now new db)
| identity_deleted (i : uuid) :
    step db (delete_auth_user i db)
| profile_inserted (uid : caller) (row : public.profiles) (db' : public.database) :
    insert_as uid row db = Some db' -> step db db'
| profiles_updated (uid : caller) (now : timestamptz)
    (condition : public.profiles -> bool) (assign : public.profiles -> public.profiles)
    (table' : list public.profiles) :
    update_as uid now condition assign (public.public_profiles db) = Some table' ->
    step db {| public.auth_users := public.auth_users db; public.public_profiles := table' |}
| profiles_deleted (uid : caller) (condition : public.profiles -> bool) :
    step db {| public.auth_users := public.auth_users db;
               public.public_profiles := delete_as uid condition (public.public_profiles db) |}.

Inductive steps (db : public.database) : public.database -> Prop :=
| steps_none : steps db db
| steps_more (db1 db2 : public.database) : steps db db1 -> step db1 db2 -> steps db db2.

End policies.

Definition empty_database : public.database :=
  {| public.auth_users := []; public.public_profiles := [] |}.

(** What the two tables keep: the primary key of [public.profiles], exactly
    one profile row for every identity, and an identity for every profile
    row. *)
Definition profiles_invariant (db : public.database) : Prop :=
  public.one_profile_per_identity db /\ policies.foreign_key db.

(** ** The utilities of the edge tests *)
Module TestUtils.

(** [normalizePhoneKey]: a key of [auth.sms.test_otp] as a phone number. *)
Definition normalizePhoneKey (key : string) : string :=
  if String.prefix "+" key then key else "+" ++ key.

(** [s.replace(c, "")] for a pattern of one character: the first
    occurrence goes, the rest stays. *)
Fixpoint replace_first (c : ascii) (s : string) : string :=
  match s with
  | EmptyString => EmptyString
  | String d t => if (d =? c)%char then t else String d (replace_first c t)
  end.

(** [normalizedPhone] of [deleteUserByPhone]: [phone.replace("+", "")],
    what a user's [phone] is compared with. *)
Definition normalizedPhone (phone : string) : string := replace_first "+" phone.

End TestUtils.

(** ** The runner of the edge tests *)
Module Runner.

(** [value.slice(0, 4)] and [value.slice(-4)]. *)
Definition slice_first_4 (value : string) : string := String.substring 0 4 value.

Definition slice_last_4 (value : string) : string :=
  String.substring (String.length value - 4) 4 value.

(** [mask]: how the runner prints a required variable. *)
Definition mask (value : option string) : string :=
  match value with
  | None => "(missing)"
  | Some v =>
      if (v =? "")%string then "(missing)"
      else if String.length v <=? 8 then "***"
      else slice_first_4 v ++ "..." ++ slice_last_4 v
  end.

End Runner.

(** * Properties *)

(** ** Running programs *)

Lemma exec_bind {A B : Type} (w : world) (p : prog A) (f : A -> prog B) :
  exec w (bind p f)
  = match exec w p with
    | Returns a => exec w (f a)
    | Throws e => Throws e
    end.
Proof. induction p as [a | e | X ev k IH]; simpl; auto. Qed.

Lemma exec_try_catch {A : Type} (w : world) (p : prog A) (h : exn -> prog A) :
  exec w (try_catch p h)
  = match exec w p with
    | Returns a => Returns a
    | Throws e => exec w (h e)
    end.
Proof. induction p as [a | e | X ev k IH]; simpl; auto. Qed.

Lemma calls_bind {A B : Type} (w : world) (p : prog A) (f : A -> prog B) :
  calls w (bind p f)
  = calls w p ++ match exec w p with
                 | Returns a => calls w (f a)
                 | Throws _ => []
                 end.
Proof.
  induction p as [a | e | X ev k IH]; simpl; auto.
  now rewrite IH.
Qed.

Lemma calls_try_catch {A : Type} (w : world) (p : prog A) (h : exn -> prog A) :
  calls w (try_catch p h)
  = calls w p ++ match exec w p with
                 | Returns _ => []
                 | Throws e => calls w (h e)
                 end.
Proof.
  induction p as [a | e | X ev k IH]; simpl; auto.
  now rewrite IH.
Qed.

(** ** Regular expressions *)

Lemma iterate_class ranges lo hi s t :
  In t (Regex.iterate (Regex.residues (Regex.Chars ranges)) lo hi s)
  <-> exists p, s = p ++ t
                /\ lo <= List.length p <= hi
                /\ forallb (Regex.in_class ranges) p = true.
Proof.
  revert lo s. induction hi as [|hi IH]; intros lo s.
  - simpl. destruct (Nat.eqb_spec lo 0) as [->|Hlo]; simpl.
    + split.
      * intros [<-|[]]. exists []. repeat split; auto.
      * intros ([|c p] & -> & Hlen & _); simpl in *; [auto | lia].
    + split; [intros [] |].
      intros (p & _ & Hlen & _). lia.
  - simpl. rewrite in_app_iff, in_flat_map. split.
    + intros [Hhere | (s' & Hstep & Hrest)].
      * destruct (Nat.eqb_spec lo 0) as [->|Hlo]; simpl in Hhere; [|contradiction].
        destruct Hhere as [<-|[]]. exists []. repeat split; simpl; auto; lia.
      * destruct s as [|c s0]; simpl in Hstep; [contradiction|].
        destruct (Regex.in_class ranges c) eqn:Hc; simpl in Hstep; [|contradiction].
        destruct Hstep as [<-|[]].
        apply IH in Hrest. destruct Hrest as (p & -> & Hlen & Hall).
        exists (c :: p). simpl. rewrite Hc. repeat split; auto; lia.
    + intros ([|c p] & -> & Hlen & Hall); simpl in *.
      * left. assert (lo = 0) as -> by lia. simpl. auto.
      * apply andb_true_iff in Hall. destruct Hall as [Hc Hall].
        right. exists (p ++ t). rewrite Hc. split; [simpl; auto|].
        apply IH. exists p. repeat split; auto; lia.
Qed.

Lemma existsb_is_nil (l : list (list ascii)) :
  existsb Regex.is_nil l = true <-> In [] l.
Proof.
  rewrite existsb_exists. split.
  - intros ([|c x] & Hin & Hnil); [assumption | discriminate].
  - intros Hin. exists []. auto.
Qed.

(** A counted character class at the end of an anchored pattern matches
    exactly the words of the right length over the class. *)
Lemma accepts_repeat_class ranges lo hi s :
  Regex.accepts (Regex.Repeat lo hi (Regex.Chars ranges)) s = true
  <-> lo <= List.length s <= hi /\ forallb (Regex.in_class ranges) s = true.
Proof.
  unfold Regex.accepts.
  change (Regex.residues (Regex.Repeat lo hi (Regex.Chars ranges)) s)
    with (Regex.iterate (Regex.residues (Regex.Chars ranges)) lo hi s).
  rewrite existsb_is_nil, iterate_class. split.
  - intros (p & -> & Hlen & Hall). rewrite app_nil_r. auto.
  - intros [Hlen Hall]. exists s. rewrite app_nil_r. auto.
Qed.

Lemma in_class_digit c : Regex.in_class [("0", "9")]%char c = is_digit c.
Proof. unfold Regex.in_class, Regex.in_range, is_digit. simpl. apply orb_false_r. Qed.

Lemma in_range_lit c c' : Regex.in_range c' (c, c) = (c' =? c)%char.
Proof.
  unfold Regex.in_range. cbn [fst snd].
  destruct (Ascii.eqb_spec c' c) as [->|Hne].
  - now rewrite Nat.leb_refl.
  - apply andb_false_iff.
    destruct (Nat.leb_spec (nat_of_ascii c) (nat_of_ascii c')) as [H1|H1]; [|now left].
    destruct (Nat.leb_spec (nat_of_ascii c') (nat_of_ascii c)) as [H2|H2]; [|now right].
    exfalso. apply Hne.
    rewrite <- (ascii_nat_embedding c'), <- (ascii_nat_embedding c).
    f_equal. lia.
Qed.

Lemma in_class_lit c c' : Regex.in_class [(c, c)] c' = (c' =? c)%char.
Proof.
  unfold Regex.in_class. cbn [existsb]. now rewrite in_range_lit, orb_false_r.
Qed.

Lemma in_class_8_or_9 c :
  Regex.in_class [("8", "8"); ("9", "9")]%char c = is_8_or_9 c.
Proof.
  unfold Regex.in_class, is_8_or_9. cbn [existsb].
  now rewrite !in_range_lit, orb_false_r.
Qed.

(** A literal at the head of a pattern consumes that very character. *)
Lemma accepts_lit c r s :
  Regex.accepts (Regex.Seq (Regex.lit c) r) s
  = match s with
    | c' :: t => (c' =? c)%char && Regex.accepts r t
    | [] => false
    end.
Proof.
  unfold Regex.accepts, Regex.lit. cbn [Regex.residues].
  destruct s as [|c' t]; cbn [flat_map existsb]; auto.
  rewrite in_class_lit. destruct (c' =? c)%char; cbn [flat_map existsb andb]; auto.
  now rewrite app_nil_r.
Qed.

Lemma list_ascii_of_string_append s t :
  list_ascii_of_string (s ++ t)%string = list_ascii_of_string s ++ list_ascii_of_string t.
Proof. induction s as [|c s IH]; simpl; auto. now rewrite IH. Qed.

Lemma forallb_ext_class (f g : ascii -> bool) (l : list ascii) :
  (forall c, f c = g c) -> forallb f l = forallb g l.
Proof. intros Hfg. induction l as [|c l IH]; simpl; auto. now rewrite Hfg, IH. Qed.

Ltac peel_literal H s :=
  destruct s as [|? s]; cbn [list_ascii_of_string] in H;
  rewrite accepts_lit in H; [discriminate|];
  apply andb_true_iff in H; destruct H as [?Hc H];
  apply Ascii.eqb_eq in Hc; subst.

(** The first test-number pattern matches exactly [+1234567] and three digits. *)
Lemma TEST_NUMBER_REGEX_spec s :
  Regex.test VerificationStart.TEST_NUMBER_REGEX s = true <-> test_number_shape s.
Proof.
  unfold Regex.test, VerificationStart.TEST_NUMBER_REGEX, test_number_shape. split.
  - intros H. do 8 peel_literal H s.
    apply accepts_repeat_class in H. destruct H as [Hlen Hall].
    exists (list_ascii_of_string s). rewrite string_of_list_ascii_of_string.
    repeat split; [lia|].
    now rewrite <- (forallb_ext_class _ _ _ in_class_digit).
  - intros (ds & -> & Hlen & Hall).
    rewrite list_ascii_of_string_append, list_ascii_of_string_of_list_ascii.
    cbn [list_ascii_of_string app].
    repeat (rewrite accepts_lit, Ascii.eqb_refl; cbn [andb]).
    apply accepts_repeat_class. split; [lia|].
    now rewrite (forallb_ext_class _ _ _ in_class_digit).
Qed.

(** The second test-number pattern matches exactly [+] and ten or eleven
    characters out of [8] and [9]. *)
Lemma EIGHT_NINE_REGEX_spec s :
  Regex.test VerificationStart.EIGHT_NINE_REGEX s = true <-> eights_and_nines_shape s.
Proof.
  unfold Regex.test, VerificationStart.EIGHT_NINE_REGEX, eights_and_nines_shape. split.
  - intros H. peel_literal H s.
    apply accepts_repeat_class in H. destruct H as [Hlen Hall].
    exists (list_ascii_of_string s). rewrite string_of_list_ascii_of_string.
    repeat split; try lia.
    now rewrite <- (forallb_ext_class _ _ _ in_class_8_or_9).
  - intros (ds & -> & Hlen & Hall).
    cbn [list_ascii_of_string]. rewrite list_ascii_of_string_of_list_ascii.
    rewrite accepts_lit, Ascii.eqb_refl. cbn [andb].
    apply accepts_repeat_class. split; [lia|].
    now rewrite (forallb_ext_class _ _ _ in_class_8_or_9).
Qed.

Lemma in_class_nonzero_digit c : Regex.in_class [("1", "9")]%char c = is_nonzero_digit c.
Proof. unfold Regex.in_class, Regex.in_range, is_nonzero_digit. simpl. apply orb_false_r. Qed.

(** A character class at the head of a pattern consumes one character of it. *)
Lemma accepts_chars ranges r s :
  Regex.accepts (Regex.Seq (Regex.Chars ranges) r) s
  = match s with
    | c :: t => Regex.in_class ranges c && Regex.accepts r t
    | [] => false
    end.
Proof.
  unfold Regex.accepts. cbn [Regex.residues].
  destruct s as [|c t]; cbn [flat_map existsb]; auto.
  destruct (Regex.in_class ranges c); cbn [flat_map existsb andb]; auto.
  now rewrite app_nil_r.
Qed.

(** The verify handler's pattern matches exactly [+], a digit from 1 to 9
    and one to fourteen digits more. *)
Lemma PHONE_REGEX_spec s :
  Regex.test VerificationVerify.PHONE_REGEX s = true <-> international_shape s.
Proof.
  unfold Regex.test, VerificationVerify.PHONE_REGEX, international_shape. split.
  - intros H. peel_literal H s.
    destruct s as [|c s]; cbn [list_ascii_of_string] in H;
      rewrite accepts_chars in H; [discriminate|].
    apply andb_true_iff in H. destruct H as [Hc H].
    apply accepts_repeat_class in H. destruct H as [Hlen Hall].
    exists c, (list_ascii_of_string s). rewrite string_of_list_ascii_of_string.
    repeat split; try lia.
    + now rewrite <- in_class_nonzero_digit.
    + now rewrite <- (forallb_ext_class _ _ _ in_class_digit).
  - intros (c & ds & -> & Hc & Hlen & Hall).
    cbn [list_ascii_of_string]. rewrite list_ascii_of_string_of_list_ascii.
    rewrite accepts_lit, Ascii.eqb_refl. cbn [andb].
    rewrite accepts_chars, in_class_nonzero_digit, Hc. cbn [andb].
    apply accepts_repeat_class. split; [lia|].
    now rewrite (forallb_ext_class _ _ _ in_class_digit).
Qed.

Example PHONE_REGEX_documented_number :
  VerificationVerify.validatePhoneNumber (JString "+1234567890") = true.
Proof. reflexivity. Qed.

Example PHONE_REGEX_not_a_phone :
  VerificationVerify.validatePhoneNumber (JString "invalid-phone") = false.
Proof. reflexivity. Qed.

Example PHONE_REGEX_leading_zero :
  VerificationVerify.validatePhoneNumber (JString "+0123456789") = false.
Proof. reflexivity. Qed.

Example PHONE_REGEX_sixteen_digits :
  VerificationVerify.validatePhoneNumber (JString "+1234567890123456") = false.
Proof. reflexivity. Qed.

Example PHONE_REGEX_missing :
  VerificationVerify.validatePhoneNumber JUndefined = false.
Proof. reflexivity. Qed.

(** ** The phone validator of the start handler *)

Lemma test_number_shape_prefix s : test_number_shape s -> exists t, s = String "+" t.
Proof. intros (ds & -> & _). simpl. eauto. Qed.

Lemma eights_and_nines_shape_prefix s : eights_and_nines_shape s -> exists t, s = String "+" t.
Proof. intros (ds & -> & _). eauto. Qed.

Lemma isLikelyTestNumber_spec s :
  VerificationStart.isLikelyTestNumber s = true
  <-> test_number_shape s \/ eights_and_nines_shape s.
Proof.
  unfold VerificationStart.isLikelyTestNumber.
  now rewrite orb_true_iff, TEST_NUMBER_REGEX_spec, EIGHT_NINE_REGEX_spec.
Qed.

(** Whatever the phone library answers, a likely test number is accepted
    and flagged. *)
Lemma validate_with_library_likely w s :
  VerificationStart.isLikelyTestNumber s = true ->
  exec w (VerificationStart.validate_with_library s)
  = Returns (VerificationStart.valid true).
Proof.
  intros Hlikely. unfold VerificationStart.validate_with_library.
  rewrite Hlikely. cbn.
  destruct (w _ (ParsePhoneNumber s)) as [[pn|]|e]; cbn; auto.
  destruct (w _ (PhoneNumberIsValid pn)) as [[|]|e]; cbn; auto.
  destruct (w _ (IsValidPhoneNumber s)) as [[|]|e]; cbn; auto.
Qed.

(** Whatever the phone library answers, a number that is no likely test
    number is never flagged as one. *)
Lemma validate_with_library_unlikely w s :
  VerificationStart.isLikelyTestNumber s = false ->
  exists v, exec w (VerificationStart.validate_with_library s) = Returns v
            /\ VerificationStart.isTestNumber v <> Some true.
Proof.
  intros Hlikely. unfold VerificationStart.validate_with_library.
  rewrite Hlikely. cbn.
  destruct (w _ (ParsePhoneNumber s)) as [[pn|]|e]; cbn;
    try (eexists; split; [reflexivity | discriminate]).
  destruct (w _ (PhoneNumberIsValid pn)) as [[|]|e]; cbn;
    try (eexists; split; [reflexivity | discriminate]).
  destruct (w _ (IsValidPhoneNumber s)) as [[|]|e]; cbn;
    eexists; split; try reflexivity; discriminate.
Qed.

(** C6 (as amended): the start handler's validator accepts every string
    [+1234567] followed by exactly three digits, and every string [+]
    followed by ten or eleven characters each of which is [8] or [9]; it
    returns [isValid: true] with the test-number flag set, whatever the
    phone library makes of the string (it may find no number, find an
    invalid one, or throw). *)
Theorem start_validator_accepts_test_numbers (w : world) (s : string) :
  test_number_shape s \/ eights_and_nines_shape s ->
  exec w (VerificationStart.validatePhoneNumber (JString s))
  = Returns {| VerificationStart.isValid := true;
               VerificationStart.error := None;
               VerificationStart.isTestNumber := Some true |}.
Proof.
  intros Hshape.
  assert (exists t, s = String "+" t) as [t Hs]
    by (destruct Hshape; auto using test_number_shape_prefix, eights_and_nines_shape_prefix).
  apply isLikelyTestNumber_spec in Hshape.
  unfold VerificationStart.validatePhoneNumber.
  replace (truthy (JString s)) with true by (subst s; reflexivity).
  replace (String.prefix "+" s) with true by (subst s; simpl; now destruct t).
  cbn [negb]. now apply validate_with_library_likely.
Qed.

(** C6, witness: [+1234567890] in a world whose phone library recognises
    no number. *)
Lemma start_validator_accepts_test_numbers_witness :
  exec (world_of quiet_answers) (VerificationStart.validatePhoneNumber (JString "+1234567890"))
  = Returns {| VerificationStart.isValid := true;
               VerificationStart.error := None;
               VerificationStart.isTestNumber := Some true |}.
Proof.
  apply (start_validator_accepts_test_numbers (world_of quiet_answers) "+1234567890").
  left. exists ["8"; "9"; "0"]%char. repeat split.
Defined.

(** C6 as the spec words it fails: [+8123456789] is [+] and ten digits, the
    first of them [8], yet no world makes the validator return it as a
    flagged test number, and a phone library that finds no number in it has
    it rejected. *)
Lemma start_validator_rejects_digits_from_8 :
  digits_from_8_or_9_shape "+8123456789"
  /\ (forall w : world,
         exec w (VerificationStart.validatePhoneNumber (JString "+8123456789"))
         <> Returns {| VerificationStart.isValid := true;
                       VerificationStart.error := None;
                       VerificationStart.isTestNumber := Some true |})
  /\ exec (world_of quiet_answers)
          (VerificationStart.validatePhoneNumber (JString "+8123456789"))
     = Returns {| VerificationStart.isValid := false;
                  VerificationStart.error := Some "Invalid phone number format";
                  VerificationStart.isTestNumber := None |}.
Proof.
  split; [|split].
  - exists "8"%char, ["1"; "2"; "3"; "4"; "5"; "6"; "7"; "8"; "9"]%char.
    repeat split; simpl; lia.
  - intros w.
    change (exec w (VerificationStart.validatePhoneNumber (JString "+8123456789")))
      with (exec w (VerificationStart.validate_with_library "+8123456789")).
    destruct (validate_with_library_unlikely w "+8123456789" eq_refl) as (v & -> & Hflag).
    intros Heq. injection Heq as ->. now apply Hflag.
  - reflexivity.
Qed.

(** ** The verify handler *)

Section VerifyHandler.
Import VerificationVerify.

Variable client_config_error : string -> string -> option exn.
Variable w : world.
Variable req : Request VerificationConfirmRequest.
Variable request : VerificationConfirmRequest.

Hypothesis Hmethod : method req = "POST".
Hypothesis Hbody : json_body req = Parsed request.

Let retry : Response :=
  json_response 500 (error_body "Verification failed. Please try again.").

(** A well-formed request is handled by [verify]; nothing [verify] throws
    gets past the outer [catch]. *)
Lemma handler_parsed :
  exec w (handler client_config_error req)
  = match exec w (verify client_config_error request) with
    | Returns response => Returns response
    | Throws _ => Returns (json_response 500 (error_body "Internal server error"))
    end.
Proof.
  unfold handler, read_request. rewrite Hmethod, Hbody. cbn [String.eqb Ascii.eqb Bool.eqb negb].
  cbn [bind]. rewrite exec_try_catch.
  destruct (exec w (verify client_config_error request)); reflexivity.
Qed.

Lemma calls_handler_parsed :
  calls w (handler client_config_error req)
  = calls w (verify client_config_error request)
      ++ match exec w (verify client_config_error request) with
         | Returns _ => []
         | Throws e => [Called (Console LogError "Unexpected error:" (LoggedExn e))]
         end.
Proof.
  unfold handler, read_request. rewrite Hmethod, Hbody. cbn [String.eqb Ascii.eqb Bool.eqb negb].
  cbn [bind]. rewrite calls_try_catch.
  destruct (exec w (verify client_config_error request)); reflexivity.
Qed.

Hypothesis Hphone : validatePhoneNumber (phone_number request) = true.
Hypothesis Hcode : code_malformed (verification_code request) = false.
Hypothesis Hconfigured : configured client_config_error w.

(** With the client configured, what follows the provider's answer
    returns a response and throws nothing. *)
Lemma exec_after_verifyOtp (r : AuthResponse) :
  exec w (after_verifyOtp client_config_error r)
  = Returns
      match auth_error r, data_session r, data_user r with
      | Some _, _, _ => json_response 400 (error_body "Invalid verification code")
      | None, None, _ =>
          json_response 500 (error_body "Verification failed. No session created.")
      | None, Some _, None =>
          json_response 500 (error_body "Verification failed. No user data available.")
      | None, Some session, Some user =>
          json_response 200
            (success_json session user (response_data (w _ (profile_read w session user))))
      end.
Proof.
  unfold after_verifyOtp.
  destruct (auth_error r) as [e|]; [reflexivity|].
  destruct (data_session r) as [session|]; [|reflexivity].
  destruct (data_user r) as [user|]; [|reflexivity].
  unfold createClient, env_or_empty. cbn [bind call exec].
  unfold configured, env_value in Hconfigured. rewrite Hconfigured.
  cbn [bind exec]. unfold profile_read, authed_client, env_value.
  destruct (response_error _); reflexivity.
Qed.

(** A request that passes both checks reaches the provider, and the
    provider's answer decides the response. *)
Lemma handler_redeems :
  exec w (handler client_config_error req)
  = match w _ (redeem_call w request) with
    | Returns r => exec w (after_verifyOtp client_config_error r)
    | Throws _ => Returns retry
    end.
Proof.
  rewrite handler_parsed. unfold verify. rewrite Hphone, Hcode. cbn [negb].
  unfold createClient, env_or_empty. cbn [bind call exec].
  unfold configured, env_value in Hconfigured. rewrite Hconfigured.
  cbn [bind exec]. rewrite exec_try_catch. unfold attempt. cbn [bind exec].
  unfold redeem_call, anon_client, env_value.
  destruct (w _ (VerifyOtp _ _ _ _)) as [r|e]; cbn [bind exec].
  - rewrite exec_after_verifyOtp. reflexivity.
  - reflexivity.
Qed.
End VerifyHandler.

(** The verify handler answers every request: nothing it throws escapes. *)
Lemma verify_handler_always_responds
    (client_config_error : string -> string -> option exn) (w : world)
    (req : Request VerificationVerify.VerificationConfirmRequest) :
  exists response,
    exec w (VerificationVerify.handler client_config_error req) = Returns response.
Proof.
  unfold VerificationVerify.handler.
  destruct (method req =? "OPTIONS")%string; [eexists; reflexivity|].
  destruct (method req =? "POST")%string; cbn [negb]; [|eexists; reflexivity].
  rewrite exec_try_catch.
  destruct (exec w _) as [response|e]; eexists; reflexivity.
Qed.

(** The preflight and the methods other than POST never reach the body. *)
Lemma verify_handler_methods
    (client_config_error : string -> string -> option exn) (w : world)
    (req : Request VerificationVerify.VerificationConfirmRequest) :
  (method req = "OPTIONS" ->
   exec w (VerificationVerify.handler client_config_error req) = Returns preflight_response)
  /\ (method req <> "OPTIONS" -> method req <> "POST" ->
      exec w (VerificationVerify.handler client_config_error req)
      = Returns (json_response 405 (error_body "Method not allowed"))).
Proof.
  unfold VerificationVerify.handler. split.
  - intros ->. reflexivity.
  - intros Ho Hp. apply String.eqb_neq in Ho, Hp. now rewrite Ho, Hp.
Qed.

(** A phone number that fails the pattern ends the request with 400 before
    any call is made. *)
Lemma verify_invalid_phone
    (client_config_error : string -> string -> option exn) (w : world)
    (req : Request VerificationVerify.VerificationConfirmRequest)
    (request : VerificationVerify.VerificationConfirmRequest) :
  method req = "POST" ->
  json_body req = Parsed request ->
  VerificationVerify.validatePhoneNumber (VerificationVerify.phone_number request) = false ->
  exec w (VerificationVerify.handler client_config_error req)
  = Returns (json_response 400 (error_body "Invalid phone number format"))
  /\ calls w (VerificationVerify.handler client_config_error req) = [].
Proof.
  intros Hmethod Hbody Hphone.
  rewrite (handler_parsed client_config_error w req request Hmethod Hbody).
  rewrite (calls_handler_parsed client_config_error w req request Hmethod Hbody).
  unfold VerificationVerify.verify. rewrite Hphone. simpl. auto.
Qed.

(** A provider call that throws is answered 500 with the retry message. *)
Lemma verify_provider_throws
    (client_config_error : string -> string -> option exn) (w : world)
    (req : Request VerificationVerify.VerificationConfirmRequest)
    (request : VerificationVerify.VerificationConfirmRequest) (e : exn) :
  method req = "POST" ->
  json_body req = Parsed request ->
  VerificationVerify.validatePhoneNumber (VerificationVerify.phone_number request) = true ->
  VerificationVerify.code_malformed (VerificationVerify.verification_code request) = false ->
  configured client_config_error w ->
  w _ (redeem_call w request) = Throws e ->
  exec w (VerificationVerify.handler client_config_error req)
  = Returns (json_response 500 (error_body "Verification failed. Please try again.")).
Proof.
  intros Hmethod Hbody Hphone Hcode Hconf Hredeem.
  rewrite (handler_redeems client_config_error w req request Hmethod Hbody Hphone Hcode Hconf).
  now rewrite Hredeem.
Qed.

Lemma field_column (f : Profile -> option string) (read : PostgrestResponse) :
  VerificationVerify.field f (response_data read) = column f read.
Proof. destruct read as [[row|]|e]; reflexivity. Qed.


(** C1: a verify request whose phone number passes the format check and
    whose code passes the shape check, and for which the provider's redeem
    call returns no error and yields a session and a user, is answered 200
    with a body of exactly three members: the message, the provider's
    session as it came (its access token, refresh token, expiry and token
    type, each unchanged), and a user of exactly [id], [phone] and
    [profile], the profile holding exactly the five columns, each the text
    that was read and [null] when it is unset or could not be read. *)
Theorem verify_success_response
    (client_config_error : string -> string -> option exn) (w : world)
    (req : Request VerificationVerify.VerificationConfirmRequest)
    (request : VerificationVerify.VerificationConfirmRequest)
    (r : AuthResponse) (session : Session) (user : User) :
  method req = "POST" ->
  json_body req = Parsed request ->
  VerificationVerify.validatePhoneNumber (VerificationVerify.phone_number request) = true ->
  VerificationVerify.code_malformed (VerificationVerify.verification_code request) = false ->
  configured client_config_error w ->
  w _ (redeem_call w request) = Returns r ->
  auth_error r = None ->
  data_session r = Some session ->
  data_user r = Some user ->
  let read := w _ (profile_read w session user) in
  exec w (VerificationVerify.handler client_config_error req)
  = Returns
      {| status := 200;
         headers := corsHeaders ++ [("Content-Type", "application/json")];
         body :=
           Json
             (Jobject
                [ ("message", Jstring "Phone verification successful");
                  ("session",
                    Jobject
                      [ ("access_token", Jstring (access_token session));
                        ("refresh_token", Jstring (refresh_token session));
                        ("expires_in", Jnumber (expires_in session));
                        ("token_type", Jstring (token_type session)) ]);
                  ("user",
                    Jobject
                      [ ("id", Jstring (user_id user));
                        ("phone", Jstring (user_phone user));
                        ("profile",
                          Jobject
                            [ ("email", column email read);
                              ("first_name", column first_name read);
                              ("last_name", column last_name read);
                              ("phone", column phone read);
                              ("correspondence_address",
                                column correspondence_address read) ]) ]) ]) |}.
Proof.
  intros Hmethod Hbody Hphone Hcode Hconf Hredeem Herror Hsession Huser read.
  rewrite (handler_redeems client_config_error w req request Hmethod Hbody Hphone Hcode Hconf).
  rewrite Hredeem.
  rewrite (exec_after_verifyOtp client_config_error w Hconf).
  rewrite Herror, Hsession, Huser.
  unfold VerificationVerify.success_json, VerificationVerify.profile_json, json_response,
    json_of_session.
  now rewrite !field_column.
Qed.

(** C1, witness: the documented test number and code, a provider that
    redeems it with a session of access token [access], refresh token
    [refresh], an expiry of 3600 seconds and token type [bearer], and a
    profile row with two of its columns set. *)
Lemma verify_success_response_witness :
  exec (world_of (verified_answers (PostgrestSuccess (Some sample_profile))))
    (VerificationVerify.handler sample_config_error
       (verify_request (JString "+1234567890") (JString "123456")))
  = Returns
      {| status := 200;
         headers :=
           [ ("Access-Control-Allow-Origin", "*");
             ("Access-Control-Allow-Headers",
               "authorization, x-client-info, apikey, content-type");
             ("Content-Type", "application/json") ];
         body :=
           Json
             (Jobject
                [ ("message", Jstring "Phone verification successful");
                  ("session",
                    Jobject
                      [ ("access_token", Jstring "access");
                        ("refresh_token", Jstring "refresh");
                        ("expires_in", Jnumber 3600);
                        ("token_type", Jstring "bearer") ]);
                  ("user",
                    Jobject
                      [ ("id", Jstring "7f1c");
                        ("phone", Jstring "1234567890");
                        ("profile",
                          Jobject
                            [ ("email", Jnull);
                              ("first_name", Jstring "Luiza");
                              ("last_name", Jnull);
                              ("phone", Jstring "1234567890");
                              ("correspondence_address", Jnull) ]) ]) ]) |}.
Proof.
  apply (verify_success_response sample_config_error
           (world_of (verified_answers (PostgrestSuccess (Some sample_profile))))
           (verify_request (JString "+1234567890") (JString "123456"))
           {| VerificationVerify.phone_number := JString "+1234567890";
              VerificationVerify.verification_code := JString "123456" |}
           {| data_user := Some sample_user; data_session := Some sample_session;
              auth_error := None |}
           sample_session sample_user); reflexivity.
Defined.

(** C2: when a verify request reaches the provider's redeem call and the
    answer carries no error, a missing session is answered 500 with the
    body [{"error": "Verification failed. No session created."}], a missing
    user (the session being there) is answered 500 with the body
    [{"error": "Verification failed. No user data available."}], a missing
    session or user is answered 500 in any case and never with a status of
    the 400 class, and the two responses differ, in their bodies. *)
Theorem verify_missing_session_or_user
    (client_config_error : string -> string -> option exn) (w : world)
    (req : Request VerificationVerify.VerificationConfirmRequest)
    (request : VerificationVerify.VerificationConfirmRequest)
    (r : AuthResponse) :
  method req = "POST" ->
  json_body req = Parsed request ->
  VerificationVerify.validatePhoneNumber (VerificationVerify.phone_number request) = true ->
  VerificationVerify.code_malformed (VerificationVerify.verification_code request) = false ->
  configured client_config_error w ->
  w _ (redeem_call w request) = Returns r ->
  auth_error r = None ->
  (data_session r = None ->
   exec w (VerificationVerify.handler client_config_error req)
   = Returns
       {| status := 500;
          headers := corsHeaders ++ [("Content-Type", "application/json")];
          body :=
            Json (Jobject [("error", Jstring "Verification failed. No session created.")]) |})
  /\ (forall session,
         data_session r = Some session ->
         data_user r = None ->
         exec w (VerificationVerify.handler client_config_error req)
         = Returns
             {| status := 500;
                headers := corsHeaders ++ [("Content-Type", "application/json")];
                body :=
                  Json
                    (Jobject
                       [("error", Jstring "Verification failed. No user data available.")]) |})
  /\ (data_session r = None \/ data_user r = None ->
      exists response,
        exec w (VerificationVerify.handler client_config_error req) = Returns response
        /\ status response = 500
        /\ ~ (400 <= status response < 500))
  /\ (forall (without_session without_user : AuthResponse) (session : Session)
             (w1 w2 : world),
         configured client_config_error w1 ->
         configured client_config_error w2 ->
         w1 _ (redeem_call w1 request) = Returns without_session ->
         auth_error without_session = None ->
         data_session without_session = None ->
         w2 _ (redeem_call w2 request) = Returns without_user ->
         auth_error without_user = None ->
         data_session without_user = Some session ->
         data_user without_user = None ->
         exec w1 (VerificationVerify.handler client_config_error req)
         <> exec w2 (VerificationVerify.handler client_config_error req))
  /\ {| status := 500;
        headers := corsHeaders ++ [("Content-Type", "application/json")];
        body :=
          Json (Jobject [("error", Jstring "Verification failed. No session created.")]) |}
     <> {| status := 500;
           headers := corsHeaders ++ [("Content-Type", "application/json")];
           body :=
             Json
               (Jobject
                  [("error", Jstring "Verification failed. No user data available.")]) |}.
Proof.
  intros Hmethod Hbody Hphone Hcode Hconf Hredeem Herror.
  repeat split.
  - intros Hs.
    rewrite (handler_redeems client_config_error w req request Hmethod Hbody Hphone Hcode Hconf).
    rewrite Hredeem, (exec_after_verifyOtp client_config_error w Hconf), Herror, Hs.
    reflexivity.
  - intros session Hs Hu.
    rewrite (handler_redeems client_config_error w req request Hmethod Hbody Hphone Hcode Hconf).
    rewrite Hredeem, (exec_after_verifyOtp client_config_error w Hconf), Herror, Hs, Hu.
    reflexivity.
  - rewrite (handler_redeems client_config_error w req request Hmethod Hbody Hphone Hcode Hconf).
    rewrite Hredeem, (exec_after_verifyOtp client_config_error w Hconf), Herror.
    intros [Hs|Hu].
    + rewrite Hs. eexists. split; [reflexivity|]. simpl. lia.
    + rewrite Hu. destruct (data_session r); eexists; (split; [reflexivity|]); simpl; lia.
  - intros r1 r2 session w1 w2 Hconf1 Hconf2 Hredeem1 Herror1 Hs1 Hredeem2 Herror2 Hs2 Hu2.
    rewrite (handler_redeems client_config_error w1 req request
               Hmethod Hbody Hphone Hcode Hconf1).
    rewrite (handler_redeems client_config_error w2 req request
               Hmethod Hbody Hphone Hcode Hconf2).
    rewrite Hredeem1, (exec_after_verifyOtp client_config_error w1 Hconf1), Herror1, Hs1.
    rewrite Hredeem2, (exec_after_verifyOtp client_config_error w2 Hconf2), Herror2, Hs2, Hu2.
    discriminate.
  - discriminate.
Qed.

(** C2, witness: a provider that answers the redeem call with neither
    error, session nor user, and one that answers it with a session and no
    user. *)
Lemma verify_missing_session_or_user_witness :
  exec (world_of (redeem_answers (redeemed None None)))
    (VerificationVerify.handler sample_config_error
       (verify_request (JString "+1234567890") (JString "123456")))
  = Returns
      {| status := 500;
         headers := corsHeaders ++ [("Content-Type", "application/json")];
         body :=
           Json (Jobject [("error", Jstring "Verification failed. No session created.")]) |}
  /\ exec (world_of (redeem_answers (redeemed (Some sample_session) None)))
       (VerificationVerify.handler sample_config_error
          (verify_request (JString "+1234567890") (JString "123456")))
     = Returns
         {| status := 500;
            headers := corsHeaders ++ [("Content-Type", "application/json")];
            body :=
              Json
                (Jobject
                   [("error", Jstring "Verification failed. No user data available.")]) |}.
Proof.
  split.
  - apply (verify_missing_session_or_user sample_config_error
             (world_of (redeem_answers (redeemed None None)))
             (verify_request (JString "+1234567890") (JString "123456"))
             {| VerificationVerify.phone_number := JString "+1234567890";
                VerificationVerify.verification_code := JString "123456" |}
             {| data_user := None; data_session := None; auth_error := None |});
      reflexivity.
  - apply (proj1 (proj2
             (verify_missing_session_or_user sample_config_error
                (world_of (redeem_answers (redeemed (Some sample_session) None)))
                (verify_request (JString "+1234567890") (JString "123456"))
                {| VerificationVerify.phone_number := JString "+1234567890";
                   VerificationVerify.verification_code := JString "123456" |}
                {| data_user := None; data_session := Some sample_session;
                   auth_error := None |}
                eq_refl eq_refl eq_refl eq_refl eq_refl eq_refl eq_refl))
           sample_session eq_refl eq_refl).
Defined.






(** ** The start handler *)

(** The validator returns a verdict in every world; it throws nothing. *)
Lemma validate_with_library_returns w s :
  exists v, exec w (VerificationStart.validate_with_library s) = Returns v.
Proof.
  unfold VerificationStart.validate_with_library. cbn.
  destruct (w _ (ParsePhoneNumber s)) as [[pn|]|e]; cbn;
    try (destruct (VerificationStart.isLikelyTestNumber s); eexists; reflexivity).
  destruct (w _ (PhoneNumberIsValid pn)) as [[|]|e]; cbn;
    try (destruct (VerificationStart.isLikelyTestNumber s); eexists; reflexivity).
  destruct (w _ (IsValidPhoneNumber s)) as [[|]|e]; cbn;
    destruct (VerificationStart.isLikelyTestNumber s); eexists; reflexivity.
Qed.

Lemma validatePhoneNumber_returns w phone :
  exists v, exec w (VerificationStart.validatePhoneNumber phone) = Returns v.
Proof.
  destruct phone as [| |s]; cbn; try (eexists; reflexivity).
  destruct (negb (s =? "")%string); cbn; [|eexists; reflexivity].
  destruct (String.prefix "+" s); cbn; [|eexists; reflexivity].
  apply validate_with_library_returns.
Qed.





Section StartHandler.
Import VerificationStart.

Variable client_config_error : string -> string -> option exn.
Variable w : world.
Variable req : Request VerificationRequest.
Variable request : VerificationRequest.

Hypothesis Hmethod : method req = "POST".
Hypothesis Hbody : json_body req = Parsed request.

Lemma start_handler_parsed :
  exec w (handler client_config_error req)
  = match exec w (start client_config_error request) with
    | Returns response => Returns response
    | Throws _ => Returns (json_response 500 (error_body "Internal server error"))
    end.
Proof.
  unfold handler, read_request. rewrite Hmethod, Hbody. cbn [String.eqb Ascii.eqb Bool.eqb negb].
  cbn [bind]. rewrite exec_try_catch.
  destruct (exec w (start client_config_error request)); reflexivity.
Qed.

Lemma calls_start_handler_parsed :
  calls w (handler client_config_error req)
  = calls w (start client_config_error request)
      ++ match exec w (start client_config_error request) with
         | Returns _ => []
         | Throws e => [Called (Console LogError "Unexpected error:" (LoggedExn e))]
         end.
Proof.
  unfold handler, read_request. rewrite Hmethod, Hbody. cbn [String.eqb Ascii.eqb Bool.eqb negb].
  cbn [bind]. rewrite calls_try_catch.
  destruct (exec w (start client_config_error request)); reflexivity.
Qed.

Variable v : validation.
Hypothesis Hvalidation : exec w (validatePhoneNumber (phone_number request)) = Returns v.

(** A rejected phone number ends the request with 400 and the
    validator's message. *)
Lemma start_rejected :
  isValid v = false ->
  exec w (handler client_config_error req)
  = Returns (json_response 400 (error_body (error_or_default (error v))))
  /\ calls w (handler client_config_error req)
     = calls w (validatePhoneNumber (phone_number request)).
Proof.
  intros Hinvalid.
  rewrite start_handler_parsed, calls_start_handler_parsed.
  unfold start. rewrite exec_bind, calls_bind, Hvalidation, Hinvalid.
  cbn. now rewrite !app_nil_r.
Qed.

Hypothesis Hvalid : isValid v = true.
Hypothesis Hconfigured : configured client_config_error w.

(** An accepted phone number reaches the provider, and the provider's
    answer decides the response. *)
Lemma start_sends :
  exec w (handler client_config_error req)
  = match w _ (send_call w request) with
    | Returns r =>
        match otp_error r with
        | Some _ => Returns send_failed
        | None =>
            Returns (json_response 200
                       (Jobject
                          (("message", Jstring "Verification code sent successfully")
                             :: stringify_member "phone_number" (phone_number request))))
        end
    | Throws _ => Returns send_failed
    end.
Proof.
  rewrite start_handler_parsed. unfold start.
  rewrite exec_bind, Hvalidation, Hvalid. cbn [negb].
  unfold createClient, env_or_empty. cbn [bind call exec].
  unfold configured, env_value in Hconfigured. rewrite Hconfigured.
  cbn [bind exec]. rewrite exec_try_catch. unfold attempt. cbn [bind exec].
  unfold send_call, anon_client, env_value.
  destruct (w _ (SignInWithOtp _ _)) as [r|e]; cbn [bind exec]; [|reflexivity].
  destruct (otp_error r); reflexivity.
Qed.
End StartHandler.



(** C4: when the provider rejects the redeem call of the verify handler,
    the handler answers 400 with the body
    [{"error": "Invalid verification code"}]; when the provider's send call
    fails in the start handler, by returning an error or by throwing, the
    handler answers 500 with the body
    [{"error": "Failed to send verification code. Please try again."}];
    either response is the same whatever the provider's error holds, so
    nothing of it reaches the body. *)
Theorem provider_errors_are_not_exposed
    (client_config_error : string -> string -> option exn) (w : world)
    (vreq : Request VerificationVerify.VerificationConfirmRequest)
    (vrequest : VerificationVerify.VerificationConfirmRequest)
    (sreq : Request VerificationStart.VerificationRequest)
    (srequest : VerificationStart.VerificationRequest)
    (v : VerificationStart.validation) :
  configured client_config_error w ->
  method vreq = "POST" ->
  json_body vreq = Parsed vrequest ->
  VerificationVerify.validatePhoneNumber (VerificationVerify.phone_number vrequest) = true ->
  VerificationVerify.code_malformed (VerificationVerify.verification_code vrequest) = false ->
  method sreq = "POST" ->
  json_body sreq = Parsed srequest ->
  exec w (VerificationStart.validatePhoneNumber (VerificationStart.phone_number srequest))
  = Returns v ->
  VerificationStart.isValid v = true ->
  (forall (r : AuthResponse) (e : AuthError),
      w _ (redeem_call w vrequest) = Returns r ->
      auth_error r = Some e ->
      exec w (VerificationVerify.handler client_config_error vreq)
      = Returns
          {| status := 400;
             headers := corsHeaders ++ [("Content-Type", "application/json")];
             body := Json (Jobject [("error", Jstring "Invalid verification code")]) |})
  /\ (forall (r : OtpResponse) (e : AuthError),
         w _ (send_call w srequest) = Returns r ->
         otp_error r = Some e ->
         exec w (VerificationStart.handler client_config_error sreq)
         = Returns
             {| status := 500;
                headers := corsHeaders ++ [("Content-Type", "application/json")];
                body :=
                  Json
                    (Jobject
                       [ ("error",
                           Jstring "Failed to send verification code. Please try again.")
                       ]) |})
  /\ (forall e : exn,
         w _ (send_call w srequest) = Throws e ->
         exec w (VerificationStart.handler client_config_error sreq)
         = Returns
             {| status := 500;
                headers := corsHeaders ++ [("Content-Type", "application/json")];
                body :=
                  Json
                    (Jobject
                       [ ("error",
                           Jstring "Failed to send verification code. Please try again.")
                       ]) |}).
Proof.
  intros Hconf Hvm Hvb Hphone Hcode Hsm Hsb Hv Hvalid.
  rewrite (handler_redeems client_config_error w vreq vrequest Hvm Hvb Hphone Hcode Hconf).
  rewrite (start_sends client_config_error w sreq srequest Hsm Hsb v Hv Hvalid Hconf).
  repeat split.
  - intros r e -> He. rewrite (exec_after_verifyOtp client_config_error w Hconf), He.
    reflexivity.
  - intros r e -> ->. reflexivity.
  - intros e ->. reflexivity.
Qed.

(** C4, witness: a provider that rejects the code with "Token has expired
    or is invalid" and refuses to send with the same error, and a provider
    whose send call throws. *)
Lemma provider_errors_are_not_exposed_witness :
  exec (world_of
          {| parse_answer := parse_nothing;
             send_answer := Returns {| otp_error := Some sample_auth_error |};
             redeem_answer :=
               Returns {| data_user := None; data_session := None;
                          auth_error := Some sample_auth_error |};
             select_answer := PostgrestSuccess None |})
    (VerificationVerify.handler sample_config_error
       (verify_request (JString "+1234567890") (JString "000000")))
  = Returns
      {| status := 400;
         headers := corsHeaders ++ [("Content-Type", "application/json")];
         body := Json (Jobject [("error", Jstring "Invalid verification code")]) |}
  /\ exec (world_of
             {| parse_answer := parse_nothing;
                send_answer := Returns {| otp_error := Some sample_auth_error |};
                redeem_answer :=
                  Returns {| data_user := None; data_session := None;
                             auth_error := Some sample_auth_error |};
                select_answer := PostgrestSuccess None |})
       (VerificationStart.handler sample_config_error
          (start_request (JString "+1234567890")))
     = Returns
         {| status := 500;
            headers := corsHeaders ++ [("Content-Type", "application/json")];
            body :=
              Json
                (Jobject
                   [ ("error",
                       Jstring "Failed to send verification code. Please try again.") ]) |}
  /\ exec (world_of (send_answers (Throws network_error)))
       (VerificationStart.handler sample_config_error
          (start_request (JString "+1234567890")))
     = Returns
         {| status := 500;
            headers := corsHeaders ++ [("Content-Type", "application/json")];
            body :=
              Json
                (Jobject
                   [ ("error",
                       Jstring "Failed to send verification code. Please try again.") ]) |}.
Proof.
  pose proof
    (provider_errors_are_not_exposed sample_config_error
       (world_of
          {| parse_answer := parse_nothing;
             send_answer := Returns {| otp_error := Some sample_auth_error |};
             redeem_answer :=
               Returns {| data_user := None; data_session := None;
                          auth_error := Some sample_auth_error |};
             select_answer := PostgrestSuccess None |})
       (verify_request (JString "+1234567890") (JString "000000"))
       {| VerificationVerify.phone_number := JString "+1234567890";
          VerificationVerify.verification_code := JString "000000" |}
       (start_request (JString "+1234567890"))
       {| VerificationStart.phone_number := JString "+1234567890" |}
       (VerificationStart.valid true)
       eq_refl eq_refl eq_refl eq_refl eq_refl eq_refl eq_refl eq_refl eq_refl)
    as (Hverify & Hsend & _).
  pose proof
    (provider_errors_are_not_exposed sample_config_error
       (world_of (send_answers (Throws network_error)))
       (verify_request (JString "+1234567890") (JString "000000"))
       {| VerificationVerify.phone_number := JString "+1234567890";
          VerificationVerify.verification_code := JString "000000" |}
       (start_request (JString "+1234567890"))
       {| VerificationStart.phone_number := JString "+1234567890" |}
       (VerificationStart.valid true)
       eq_refl eq_refl eq_refl eq_refl eq_refl eq_refl eq_refl eq_refl eq_refl)
    as (_ & _ & Hthrow).
  split; [| split].
  - exact (Hverify
             {| data_user := None; data_session := None;
                auth_error := Some sample_auth_error |}
             sample_auth_error eq_refl eq_refl).
  - exact (Hsend {| otp_error := Some sample_auth_error |} sample_auth_error
             eq_refl eq_refl).
  - exact (Hthrow network_error eq_refl).
Defined.

(** C9: a POST request to either endpoint whose body is no JSON text is
    answered 500 with the body [{"error": "Internal server error"}]. *)
Theorem unparseable_body_is_internal_error
    (client_config_error : string -> string -> option exn) (w : world)
    (sreq : Request VerificationStart.VerificationRequest)
    (vreq : Request VerificationVerify.VerificationConfirmRequest)
    (se ve : exn) :
  method sreq = "POST" ->
  json_body sreq = Unparseable se ->
  method vreq = "POST" ->
  json_body vreq = Unparseable ve ->
  exec w (VerificationStart.handler client_config_error sreq)
  = Returns {| status := 500;
               headers := corsHeaders ++ [("Content-Type", "application/json")];
               body := Json (Jobject [("error", Jstring "Internal server error")]) |}
  /\ exec w (VerificationVerify.handler client_config_error vreq)
     = Returns {| status := 500;
                  headers := corsHeaders ++ [("Content-Type", "application/json")];
                  body := Json (Jobject [("error", Jstring "Internal server error")]) |}.
Proof.
  intros Hsm Hsb Hvm Hvb.
  unfold VerificationStart.handler, VerificationStart.read_request,
    VerificationVerify.handler, VerificationVerify.read_request.
  rewrite Hsm, Hsb, Hvm, Hvb. split; reflexivity.
Qed.

(** C9, witness: a POST to each endpoint with a body that is no JSON. *)
Lemma unparseable_body_is_internal_error_witness :
  exec (world_of quiet_answers)
    (VerificationStart.handler sample_config_error
       {| method := "POST"; json_body := Unparseable syntax_error |})
  = Returns (json_response 500 (error_body "Internal server error"))
  /\ exec (world_of quiet_answers)
       (VerificationVerify.handler sample_config_error
          {| method := "POST"; json_body := Unparseable syntax_error |})
     = Returns (json_response 500 (error_body "Internal server error")).
Proof.
  exact (unparseable_body_is_internal_error sample_config_error (world_of quiet_answers)
           {| method := "POST"; json_body := Unparseable syntax_error |}
           {| method := "POST"; json_body := Unparseable syntax_error |}
           syntax_error syntax_error eq_refl eq_refl eq_refl eq_refl).
Defined.

(** ** The two phone checks side by side

    The verify handler tests one pattern.  The start handler asks the phone
    library and falls back on the two patterns of its test numbers.  Both
    of these lie inside the verify handler's pattern, so the two checks can
    part only on a string of that pattern which is no test number, and
    there the phone library has the last word.  Its answers are those of
    the [world]: the library is no part of the handlers. *)

(** With the phone library rejecting it, a string that starts with [+] and
    is no likely test number is rejected by the start handler's validator. *)
Lemma start_validator_follows_library w s :
  String.prefix "+" s = true ->
  VerificationStart.isLikelyTestNumber s = false ->
  library_rejects w s ->
  exists v,
    exec w (VerificationStart.validatePhoneNumber (JString s)) = Returns v
    /\ VerificationStart.isValid v = false.
Proof.
  intros Hprefix Hlikely Hlib.
  assert (truthy (JString s) = true) as Htruthy by (destruct s; [discriminate | reflexivity]).
  unfold VerificationStart.validatePhoneNumber. rewrite Htruthy, Hprefix. cbn [negb].
  unfold VerificationStart.validate_with_library, library_rejects in *.
  rewrite Hlikely. cbn.
  destruct (w _ (ParsePhoneNumber s)) as [[pn|]|e]; cbn;
    try (eexists; split; reflexivity).
  destruct (w _ (PhoneNumberIsValid pn)) as [[|]|e]; cbn;
    try (eexists; split; reflexivity).
  destruct (w _ (IsValidPhoneNumber s)) as [[|]|e]; cbn;
    try (eexists; split; reflexivity).
  contradiction.
Qed.


(** ** The trigger *)

Lemma rows_with_id_app i (t1 t2 : list public.profiles) :
  public.rows_with_id i (t1 ++ t2) = public.rows_with_id i t1 + public.rows_with_id i t2.
Proof. unfold public.rows_with_id. now rewrite filter_app, length_app. Qed.

Lemma no_conflict_no_row i (table : list public.profiles) :
  public.conflict i table = false <-> ~ In i (map public.id table).
Proof.
  unfold public.conflict. induction table as [|row table IH]; simpl.
  - intuition.
  - rewrite orb_false_iff, IH. destruct (String.eqb_spec (public.id row) i); intuition congruence.
Qed.

Lemma rows_with_id_absent i (table : list public.profiles) :
  ~ In i (map public.id table) -> public.rows_with_id i table = 0.
Proof.
  unfold public.rows_with_id. induction table as [|row table IH]; simpl; auto.
  intros Hnot. destruct (String.eqb_spec (public.id row) i) as [Heq|_].
  - exfalso. apply Hnot. now left.
  - apply IH. intros Hin. apply Hnot. now right.
Qed.

(** Under the primary key, a key that is in the table has one row. *)
Lemma rows_with_id_present i (table : list public.profiles) :
  public.primary_key table ->
  In i (map public.id table) ->
  public.rows_with_id i table = 1.
Proof.
  unfold public.primary_key.
  induction table as [|row table IH]; simpl; [contradiction|].
  intros Hkey Hin. inversion Hkey as [|? ? Hfresh Hrest]; subst.
  unfold public.rows_with_id in *. simpl.
  destruct (String.eqb_spec (public.id row) i) as [Heq|Hne].
  - subst i. simpl. f_equal. now apply rows_with_id_absent.
  - destruct Hin as [Heq|Hin]; [contradiction|]. now apply IH.
Qed.

Lemma primary_key_insert (row : public.profiles) (table : list public.profiles) :
  public.primary_key table ->
  public.primary_key (public.insert_on_conflict_do_nothing row table).
Proof.
  unfold public.primary_key, public.insert_on_conflict_do_nothing. intros Hkey.
  destruct (public.conflict (public.id row) table) eqn:Hconflict; [assumption|].
  apply no_conflict_no_row in Hconflict.
  rewrite map_app. simpl.
  apply NoDup_app; [assumption | repeat constructor; intros [] | ].
  intros i Hin [<-|[]]. contradiction.
Qed.

Lemma conflict_after_insert (row : public.profiles) (table : list public.profiles) :
  public.conflict (public.id row) (public.insert_on_conflict_do_nothing row table) = true.
Proof.
  unfold public.insert_on_conflict_do_nothing.
  destruct (public.conflict (public.id row) table) eqn:Hconflict; [assumption|].
  unfold public.conflict. rewrite existsb_app. simpl.
  rewrite String.eqb_refl. now rewrite orb_true_r.
Qed.

(** After the insert exactly one row holds the key of the new row. *)
Lemma one_row_after_insert (row : public.profiles) (table : list public.profiles) :
  public.primary_key table ->
  public.rows_with_id (public.id row) (public.insert_on_conflict_do_nothing row table) = 1.
Proof.
  intros Hkey. apply rows_with_id_present; [now apply primary_key_insert|].
  destruct (in_dec string_dec (public.id row)
              (map public.id (public.insert_on_conflict_do_nothing row table)))
    as [Hin|Hnot]; [assumption|].
  apply no_conflict_no_row in Hnot. rewrite conflict_after_insert in Hnot. discriminate.
Qed.

(** The insert leaves the rows of every other key as they were. *)
Lemma other_rows_after_insert i (row : public.profiles) (table : list public.profiles) :
  i <> public.id row ->
  public.rows_with_id i (public.insert_on_conflict_do_nothing row table)
  = public.rows_with_id i table.
Proof.
  intros Hne. unfold public.insert_on_conflict_do_nothing.
  destruct (public.conflict (public.id row) table); [reflexivity|].
  rewrite rows_with_id_app. unfold public.rows_with_id at 2. cbn [filter].
  destruct (String.eqb_spec (public.id row) i); [congruence | simpl; lia].
Qed.

(** Inserting an identity keeps one profile row per identity. *)
Lemma insert_auth_user_keeps_one_profile_per_identity
    (now : timestamptz) (new : auth.users) (db : public.database) :
  public.one_profile_per_identity db ->
  public.one_profile_per_identity (public.insert_auth_user now new db).
Proof.
  intros [Hkey Hone]. unfold public.insert_auth_user.
  destruct (existsb _ (public.auth_users db)) eqn:Hexists; [split; assumption|].
  unfold public.one_profile_per_identity, public.handle_new_user.
  cbn [public.auth_users public.public_profiles fst].
  set (row := public.new_row now (auth.id new) (auth.email new) (auth.phone new)).
  split; [now apply primary_key_insert|].
  intros u Hin. apply in_app_iff in Hin. destruct Hin as [Hin|[<-|[]]].
  - rewrite other_rows_after_insert; [now apply Hone|].
    intros Heq. rewrite <- not_true_iff_false in Hexists. apply Hexists.
    apply existsb_exists. exists u. split; [assumption|]. now apply String.eqb_eq.
  - now apply (one_row_after_insert row).
Qed.

(** C8: run after the insertion of an identity [new], on a table that
    keeps its primary key, the trigger function returns [new] as it is;
    when no row holds the id of [new] it adds the row with that id, the
    email and the phone of [new], the other text columns [NULL] and both
    timestamps [now()], and when a row holds that id it leaves the table as
    it is; afterwards exactly one row holds the id of [new], every other id
    has the rows it had, the primary key still holds, and a second run for
    the same identity changes nothing. *)
Theorem handle_new_user_one_profile_per_identity
    (now later : timestamptz) (new : auth.users) (table : list public.profiles) :
  public.primary_key table ->
  let table' := fst (public.handle_new_user now new table) in
  snd (public.handle_new_user now new table) = new
  /\ (public.conflict (auth.id new) table = false ->
      table' = table ++ [ {| public.id := auth.id new;
                             public.first_name := None;
                             public.last_name := None;
                             public.email := auth.email new;
                             public.phone := auth.phone new;
                             public.correspondence_address := None;
                             public.created_at := now;
                             public.updated_at := now |} ])
  /\ (public.conflict (auth.id new) table = true -> table' = table)
  /\ public.rows_with_id (auth.id new) table' = 1
  /\ (forall i, i <> auth.id new ->
                public.rows_with_id i table' = public.rows_with_id i table)
  /\ public.primary_key table'
  /\ public.handle_new_user later new table' = (table', new).
Proof.
  intros Hkey table'. subst table'. unfold public.handle_new_user. cbn [fst snd].
  set (row := public.new_row now (auth.id new) (auth.email new) (auth.phone new)).
  assert (public.id row = auth.id new) as Hid by reflexivity.
  repeat split.
  - intros Hconflict. unfold public.insert_on_conflict_do_nothing.
    rewrite Hid, Hconflict. reflexivity.
  - intros Hconflict. unfold public.insert_on_conflict_do_nothing.
    rewrite Hid, Hconflict. reflexivity.
  - rewrite <- Hid. now apply one_row_after_insert.
  - intros i Hne. apply other_rows_after_insert. now rewrite Hid.
  - now apply primary_key_insert.
  - f_equal. unfold public.insert_on_conflict_do_nothing at 1.
    change (public.id (public.new_row later (auth.id new) (auth.email new) (auth.phone new)))
      with (public.id row).
    now rewrite conflict_after_insert.
Qed.

(** C8, witness: the first identity on an empty table. *)
Lemma handle_new_user_one_profile_per_identity_witness :
  public.rows_with_id "7f1c" (fst (public.handle_new_user 1000%Z sample_identity [])) = 1.
Proof.
  apply (handle_new_user_one_profile_per_identity 1000%Z 2000%Z sample_identity []).
  constructor.
Defined.

(** ** More on the two phone checks *)


Lemma is_8_or_9_digit c :
  is_8_or_9 c = true -> is_digit c = true /\ is_nonzero_digit c = true.
Proof.
  unfold is_8_or_9. intros H. apply orb_true_iff in H.
  destruct H as [H|H]; apply Ascii.eqb_eq in H; subst c; split; reflexivity.
Qed.

Lemma forallb_8_or_9_digit ds : forallb is_8_or_9 ds = true -> forallb is_digit ds = true.
Proof.
  induction ds as [|c ds IH]; simpl; auto.
  intros H. apply andb_true_iff in H. destruct H as [Hc Hds].
  apply is_8_or_9_digit in Hc. destruct Hc as [-> _]. auto.
Qed.

Lemma likely_test_number_international s :
  VerificationStart.isLikelyTestNumber s = true -> international_shape s.
Proof.
  intros H. apply isLikelyTestNumber_spec in H.
  destruct H as [(ds & -> & Hlen & Hall) | (ds & -> & Hlen & Hall)].
  - exists "1"%char, (["2"; "3"; "4"; "5"; "6"; "7"]%char ++ ds).
    repeat split.
    + rewrite length_app. simpl. lia.
    + rewrite length_app. simpl. lia.
    + rewrite forallb_app. now rewrite Hall.
  - destruct ds as [|c ds]; [simpl in Hlen; lia|].
    simpl in Hall. apply andb_true_iff in Hall. destruct Hall as [Hc Hall].
    exists c, ds. simpl in Hlen. repeat split; try lia.
    + now apply is_8_or_9_digit.
    + now apply forallb_8_or_9_digit.
Qed.

(** X2: every number that the start handler takes for a likely test number
    also passes the phone check of the verify handler, so a code sent to a
    test number is never refused at verification for the number's format. *)
Theorem test_numbers_pass_verify_phone_check (s : string) :
  VerificationStart.isLikelyTestNumber s = true ->
  VerificationVerify.validatePhoneNumber (JString s) = true.
Proof.
  intros H. unfold VerificationVerify.validatePhoneNumber. cbn [ToString].
  apply PHONE_REGEX_spec. now apply likely_test_number_international.
Qed.

(** X2, witness: the documented test number. *)
Lemma test_numbers_pass_verify_phone_check_witness :
  VerificationVerify.validatePhoneNumber (JString "+1234567890") = true.
Proof. exact (test_numbers_pass_verify_phone_check "+1234567890" eq_refl). Defined.

(** ** Every path of the handlers *)

Lemma cors_in_json_response code v h :
  In h corsHeaders -> In h (headers (json_response code v)).
Proof. intros H. unfold json_response. cbn [headers]. apply in_or_app. now left. Qed.

(** With a configuration that [createClient] refuses, a request that
    passes both checks of the verify handler throws out of [verify]. *)
Lemma exec_verify_unconfigured cfg (w : world) request e :
  VerificationVerify.validatePhoneNumber (VerificationVerify.phone_number request) = true ->
  VerificationVerify.code_malformed (VerificationVerify.verification_code request) = false ->
  cfg (env_value w "SUPABASE_URL") (env_value w "SUPABASE_ANON_KEY") = Some e ->
  exec w (VerificationVerify.verify cfg request) = Throws e
  /\ calls w (VerificationVerify.verify cfg request)
     = [Called (EnvGet "SUPABASE_URL"); Called (EnvGet "SUPABASE_ANON_KEY")].
Proof.
  intros Hphone Hcode Hcfg. unfold VerificationVerify.verify. rewrite Hphone, Hcode.
  cbn [negb]. unfold createClient, env_or_empty. cbn [bind call exec calls].
  unfold env_value in Hcfg. rewrite Hcfg. split; reflexivity.
Qed.

(** The method check of the verify handler, with the calls of the run. *)
Lemma verify_handler_not_post cfg (w : world)
    (req : Request VerificationVerify.VerificationConfirmRequest) :
  method req <> "POST" ->
  exec w (VerificationVerify.handler cfg req)
  = Returns (if (method req =? "OPTIONS")%string then preflight_response
             else {| status := 405;
         headers := corsHeaders ++ [("Content-Type", "application/json")];
         body := Json (Jobject [("error", Jstring "Method not allowed")]) |})
  /\ calls w (VerificationVerify.handler cfg req) = [].
Proof.
  intros Hpost. apply String.eqb_neq in Hpost. unfold VerificationVerify.handler.
  destruct (method req =? "OPTIONS")%string; [split; reflexivity|].
  rewrite Hpost. split; reflexivity.
Qed.

Lemma verify_handler_unreadable cfg (w : world)
    (req : Request VerificationVerify.VerificationConfirmRequest) :
  method req = "POST" ->
  (forall request, json_body req <> Parsed request) ->
  exec w (VerificationVerify.handler cfg req)
  = Returns ({| status := 500;
         headers := corsHeaders ++ [("Content-Type", "application/json")];
         body := Json (Jobject [("error", Jstring "Internal server error")]) |}).
Proof.
  intros Hpost Hbody. unfold VerificationVerify.handler, VerificationVerify.read_request.
  rewrite Hpost. destruct (json_body req) as [e| |request]; try reflexivity.
  now destruct (Hbody request).
Qed.

(** The status and the headers of every response of the verify handler. *)
Lemma verify_handler_response_shape cfg (w : world)
    (req : Request VerificationVerify.VerificationConfirmRequest) :
  exists response,
    exec w (VerificationVerify.handler cfg req) = Returns response
    /\ handler_status (status response) = true
    /\ (forall h, In h corsHeaders -> In h (headers response)).
Proof.
  destruct (String.eqb_spec (method req) "POST") as [Hpost|Hpost].
  2:{ destruct (verify_handler_not_post cfg w req Hpost) as [-> _].
      destruct (method req =? "OPTIONS")%string;
        eexists; (split; [reflexivity|]); (split; [reflexivity|]);
        [auto | apply cors_in_json_response]. }
  destruct (json_body req) as [e| |request] eqn:Hbody.
  - rewrite (verify_handler_unreadable cfg w req Hpost) by (rewrite Hbody; discriminate).
    eexists. split; [reflexivity|]. split; [reflexivity | apply cors_in_json_response].
  - rewrite (verify_handler_unreadable cfg w req Hpost) by (rewrite Hbody; discriminate).
    eexists. split; [reflexivity|]. split; [reflexivity | apply cors_in_json_response].
  - destruct (VerificationVerify.validatePhoneNumber
                (VerificationVerify.phone_number request)) eqn:Hphone.
    2:{ rewrite (handler_parsed cfg w req request Hpost Hbody).
        unfold VerificationVerify.verify. rewrite Hphone. cbn.
        eexists. split; [reflexivity|]. split; [reflexivity | apply cors_in_json_response]. }
    destruct (VerificationVerify.code_malformed
                (VerificationVerify.verification_code request)) eqn:Hcode.
    { rewrite (handler_parsed cfg w req request Hpost Hbody).
      unfold VerificationVerify.verify. rewrite Hphone, Hcode. cbn.
      eexists. split; [reflexivity|]. split; [reflexivity | apply cors_in_json_response]. }
    destruct (cfg (env_value w "SUPABASE_URL") (env_value w "SUPABASE_ANON_KEY"))
      as [e|] eqn:Hcfg.
    { rewrite (handler_parsed cfg w req request Hpost Hbody).
      destruct (exec_verify_unconfigured cfg w request e Hphone Hcode Hcfg) as [-> _].
      eexists. split; [reflexivity|]. split; [reflexivity | apply cors_in_json_response]. }
    rewrite (handler_redeems cfg w req request Hpost Hbody Hphone Hcode Hcfg).
    destruct (w _ (redeem_call w request)) as [r|e].
    2:{ eexists. split; [reflexivity|]. split; [reflexivity | apply cors_in_json_response]. }
    rewrite (exec_after_verifyOtp cfg w Hcfg).
    destruct (auth_error r), (data_session r), (data_user r);
      eexists; (split; [reflexivity|]); (split; [reflexivity | apply cors_in_json_response]).
Qed.

(** The calls of what follows the provider's answer, with the client
    configured. *)
Lemma calls_after_verifyOtp cfg (w : world) (r : AuthResponse) :
  configured cfg w ->
  calls w (VerificationVerify.after_verifyOtp cfg r)
  = match auth_error r, data_session r, data_user r with
    | Some e, _, _ =>
        [Called (Console LogError "Supabase Auth verification error:" (LoggedAuthError e))]
    | None, Some session, Some user =>
        [Called (EnvGet "SUPABASE_URL"); Called (EnvGet "SUPABASE_ANON_KEY");
         Called (profile_read w session user)]
          ++ match response_error (w _ (profile_read w session user)) with
             | Some e => [Called (Console LogWarn "Error fetching profiles:"
                                    (LoggedPostgrestError e))]
             | None => []
             end
    | None, _, _ => []
    end.
Proof.
  intros Hconf. unfold VerificationVerify.after_verifyOtp.
  destruct (auth_error r) as [e|]; [reflexivity|].
  destruct (data_session r) as [session|]; [|reflexivity].
  destruct (data_user r) as [user|]; [|reflexivity].
  unfold createClient, env_or_empty. cbn [bind call exec calls].
  unfold configured, env_value in Hconf. rewrite Hconf.
  cbn [bind calls]. unfold profile_read, authed_client, env_value.
  destruct (response_error _); reflexivity.
Qed.

(** The calls of a verify request that passes both checks, the client
    configured. *)
Lemma calls_handler_redeems cfg (w : world)
    (req : Request VerificationVerify.VerificationConfirmRequest)
    (request : VerificationVerify.VerificationConfirmRequest) :
  method req = "POST" ->
  json_body req = Parsed request ->
  VerificationVerify.validatePhoneNumber (VerificationVerify.phone_number request) = true ->
  VerificationVerify.code_malformed (VerificationVerify.verification_code request) = false ->
  configured cfg w ->
  calls w (VerificationVerify.handler cfg req)
  = [Called (EnvGet "SUPABASE_URL"); Called (EnvGet "SUPABASE_ANON_KEY");
     Called (redeem_call w request)]
      ++ match w _ (redeem_call w request) with
         | Returns r => calls w (VerificationVerify.after_verifyOtp cfg r)
         | Throws e =>
             [Called (Console LogError "Unexpected error during verifyOtp:" (LoggedExn e))]
         end.
Proof.
  intros Hmethod Hbody Hphone Hcode Hconf.
  rewrite (calls_handler_parsed cfg w req request Hmethod Hbody).
  assert (exists response, exec w (VerificationVerify.verify cfg request) = Returns response)
    as [response Hexec].
  { pose proof (handler_redeems cfg w req request Hmethod Hbody Hphone Hcode Hconf) as H.
    rewrite (handler_parsed cfg w req request Hmethod Hbody) in H.
    unfold VerificationVerify.verify in *. rewrite Hphone, Hcode in *. cbn [negb] in *.
    unfold createClient, env_or_empty in *. cbn [bind call exec] in *.
    pose proof Hconf as Hconf'. unfold configured, env_value in Hconf'.
    rewrite Hconf' in *. cbn [bind exec] in *.
    rewrite exec_try_catch in *. unfold attempt in *. cbn [bind exec] in *.
    fold (env_value w "SUPABASE_URL") (env_value w "SUPABASE_ANON_KEY") in *.
    fold (anon_client w) in *. fold (redeem_call w request) in *.
    destruct (w _ (redeem_call w request)) as [r|e]; cbn [bind exec]; [|eexists; reflexivity].
    rewrite (exec_after_verifyOtp cfg w Hconf). eexists; reflexivity. }
  rewrite Hexec, app_nil_r.
  unfold VerificationVerify.verify. rewrite Hphone, Hcode. cbn [negb].
  unfold createClient, env_or_empty. cbn [bind call exec calls].
  pose proof Hconf as Hconf'. unfold configured, env_value in Hconf'. rewrite Hconf'.
  cbn [bind calls]. rewrite calls_try_catch. unfold attempt. cbn [bind exec calls].
  unfold redeem_call, anon_client, env_value. cbn [app]. do 3 f_equal.
  destruct (w _ (VerifyOtp _ _ _ _)) as [r|e]; cbn [bind exec calls].
  - rewrite (exec_after_verifyOtp cfg w Hconf). now rewrite app_nil_r.
  - reflexivity.
Qed.

(** The method check of the start handler, with the calls of the run. *)
Lemma start_handler_not_post cfg (w : world)
    (req : Request VerificationStart.VerificationRequest) :
  method req <> "POST" ->
  exec w (VerificationStart.handler cfg req)
  = Returns (if (method req =? "OPTIONS")%string then preflight_response
             else {| status := 405;
         headers := corsHeaders ++ [("Content-Type", "application/json")];
         body := Json (Jobject [("error", Jstring "Method not allowed")]) |})
  /\ calls w (VerificationStart.handler cfg req) = [].
Proof.
  intros Hpost. apply String.eqb_neq in Hpost. unfold VerificationStart.handler.
  destruct (method req =? "OPTIONS")%string; [split; reflexivity|].
  rewrite Hpost. split; reflexivity.
Qed.

Lemma start_handler_unreadable cfg (w : world)
    (req : Request VerificationStart.VerificationRequest) :
  method req = "POST" ->
  (forall request, json_body req <> Parsed request) ->
  exec w (VerificationStart.handler cfg req)
  = Returns ({| status := 500;
         headers := corsHeaders ++ [("Content-Type", "application/json")];
         body := Json (Jobject [("error", Jstring "Internal server error")]) |}).
Proof.
  intros Hpost Hbody. unfold VerificationStart.handler, VerificationStart.read_request.
  rewrite Hpost. destruct (json_body req) as [e| |request]; try reflexivity.
  now destruct (Hbody request).
Qed.

(** Only a string that starts with [+] is ever accepted by the validator. *)
Lemma validatePhoneNumber_valid_is_string (w : world) phone v :
  exec w (VerificationStart.validatePhoneNumber phone) = Returns v ->
  VerificationStart.isValid v = true ->
  exists s, phone = JString s /\ String.prefix "+" s = true.
Proof.
  intros Hv Hvalid. destruct phone as [| |s]; cbn in Hv.
  - injection Hv as <-. discriminate.
  - injection Hv as <-. discriminate.
  - destruct (negb (s =? "")%string); cbn in Hv.
    + destruct (String.prefix "+" s) eqn:Hprefix; cbn in Hv; [eauto|].
      injection Hv as <-. discriminate.
    + injection Hv as <-. discriminate.
Qed.

(** With a configuration that [createClient] refuses, an accepted phone
    number throws out of [start] before the provider is asked. *)
Lemma exec_start_unconfigured cfg (w : world) request v e :
  exec w (VerificationStart.validatePhoneNumber (VerificationStart.phone_number request))
  = Returns v ->
  VerificationStart.isValid v = true ->
  cfg (env_value w "SUPABASE_URL") (env_value w "SUPABASE_ANON_KEY") = Some e ->
  exec w (VerificationStart.start cfg request) = Throws e
  /\ calls w (VerificationStart.start cfg request)
     = calls w (VerificationStart.validatePhoneNumber (VerificationStart.phone_number request))
         ++ [Called (EnvGet "SUPABASE_URL"); Called (EnvGet "SUPABASE_ANON_KEY")].
Proof.
  intros Hv Hvalid Hcfg. unfold VerificationStart.start.
  rewrite exec_bind, calls_bind, Hv, Hvalid. cbn [negb].
  unfold createClient, env_or_empty. cbn [bind call exec calls].
  unfold env_value in Hcfg. rewrite Hcfg. split; reflexivity.
Qed.

(** The calls of a start request whose phone number is accepted, the client
    configured. *)
Lemma calls_start_sends cfg (w : world)
    (req : Request VerificationStart.VerificationRequest)
    (request : VerificationStart.VerificationRequest) v :
  method req = "POST" ->
  json_body req = Parsed request ->
  exec w (VerificationStart.validatePhoneNumber (VerificationStart.phone_number request))
  = Returns v ->
  VerificationStart.isValid v = true ->
  configured cfg w ->
  calls w (VerificationStart.handler cfg req)
  = calls w (VerificationStart.validatePhoneNumber (VerificationStart.phone_number request))
      ++ [Called (EnvGet "SUPABASE_URL"); Called (EnvGet "SUPABASE_ANON_KEY");
          Called (send_call w request)]
      ++ match w _ (send_call w request) with
         | Returns r =>
             match otp_error r with
             | Some e => [Called (Console LogError "Supabase Auth error:" (LoggedAuthError e))]
             | None => []
             end
         | Throws e =>
             [Called (Console LogError "Unexpected error during signInWithOtp:" (LoggedExn e))]
         end.
Proof.
  intros Hmethod Hbody Hv Hvalid Hconf.
  rewrite (calls_start_handler_parsed cfg w req request Hmethod Hbody).
  unfold VerificationStart.start.
  rewrite exec_bind, calls_bind, Hv, Hvalid. cbn [negb].
  unfold createClient, env_or_empty. cbn [bind call exec calls].
  unfold configured, env_value in Hconf. rewrite Hconf.
  cbn [bind exec calls]. rewrite exec_try_catch, calls_try_catch.
  unfold attempt. cbn [bind exec calls].
  unfold send_call, anon_client, env_value.
  rewrite <- app_assoc. f_equal. cbn [app]. do 3 f_equal.
  destruct (w _ (SignInWithOtp _ _)) as [r|e]; cbn [bind exec calls].
  - destruct (otp_error r); reflexivity.
  - reflexivity.
Qed.

(** The status and the headers of every response of the start handler. *)
Lemma start_handler_response_shape cfg (w : world)
    (req : Request VerificationStart.VerificationRequest) :
  exists response,
    exec w (VerificationStart.handler cfg req) = Returns response
    /\ handler_status (status response) = true
    /\ (forall h, In h corsHeaders -> In h (headers response)).
Proof.
  destruct (String.eqb_spec (method req) "POST") as [Hpost|Hpost].
  2:{ destruct (start_handler_not_post cfg w req Hpost) as [-> _].
      destruct (method req =? "OPTIONS")%string;
        eexists; (split; [reflexivity|]); (split; [reflexivity|]);
        [auto | apply cors_in_json_response]. }
  destruct (json_body req) as [e| |request] eqn:Hbody.
  - rewrite (start_handler_unreadable cfg w req Hpost) by (rewrite Hbody; discriminate).
    eexists. split; [reflexivity|]. split; [reflexivity | apply cors_in_json_response].
  - rewrite (start_handler_unreadable cfg w req Hpost) by (rewrite Hbody; discriminate).
    eexists. split; [reflexivity|]. split; [reflexivity | apply cors_in_json_response].
  - destruct (validatePhoneNumber_returns w (VerificationStart.phone_number request))
      as [v Hv].
    destruct (VerificationStart.isValid v) eqn:Hvalid.
    2:{ destruct (start_rejected cfg w req request Hpost Hbody v Hv Hvalid) as [-> _].
        eexists. split; [reflexivity|]. split; [reflexivity | apply cors_in_json_response]. }
    destruct (cfg (env_value w "SUPABASE_URL") (env_value w "SUPABASE_ANON_KEY"))
      as [e|] eqn:Hcfg.
    { rewrite (start_handler_parsed cfg w req request Hpost Hbody).
      destruct (exec_start_unconfigured cfg w request v e Hv Hvalid Hcfg) as [-> _].
      eexists. split; [reflexivity|]. split; [reflexivity | apply cors_in_json_response]. }
    rewrite (start_sends cfg w req request Hpost Hbody v Hv Hvalid Hcfg).
    destruct (w _ (send_call w request)) as [r|e].
    2:{ eexists. split; [reflexivity|]. split; [reflexivity | apply cors_in_json_response]. }
    destruct (otp_error r);
      eexists; (split; [reflexivity|]); (split; [reflexivity | apply cors_in_json_response]).
Qed.

(** ** Further properties of the verify handler *)

(** X3: a verify request whose phone number fails the format check is
    answered 400 "Invalid phone number format" whatever its code, the
    configuration and the world, and the handler makes no call at all. *)
Theorem verify_bad_phone_rejected_first
    (client_config_error : string -> string -> option exn) (w : world)
    (req : Request VerificationVerify.VerificationConfirmRequest)
    (request : VerificationVerify.VerificationConfirmRequest) :
  method req = "POST" ->
  json_body req = Parsed request ->
  VerificationVerify.validatePhoneNumber (VerificationVerify.phone_number request) = false ->
  exec w (VerificationVerify.handler client_config_error req)
  = Returns ({| status := 400;
         headers := corsHeaders ++ [("Content-Type", "application/json")];
         body := Json (Jobject [("error", Jstring "Invalid phone number format")]) |})
  /\ calls w (VerificationVerify.handler client_config_error req) = [].
Proof.
  intros Hmethod Hbody Hphone.
  rewrite (handler_parsed client_config_error w req request Hmethod Hbody).
  rewrite (calls_handler_parsed client_config_error w req request Hmethod Hbody).
  unfold VerificationVerify.verify. rewrite Hphone. cbn [negb exec calls app]. auto.
Qed.

(** X3, witness: the phone number of the repository's own test, with a
    code that is malformed too. *)
Lemma verify_bad_phone_rejected_first_witness :
  exec unconfigured_world
    (VerificationVerify.handler sample_config_error
       (verify_request (JString "invalid-phone") (JString "12")))
  = Returns ({| status := 400;
         headers := corsHeaders ++ [("Content-Type", "application/json")];
         body := Json (Jobject [("error", Jstring "Invalid phone number format")]) |})
  /\ calls unconfigured_world
       (VerificationVerify.handler sample_config_error
          (verify_request (JString "invalid-phone") (JString "12"))) = [].
Proof.
  exact (verify_bad_phone_rejected_first sample_config_error unconfigured_world
           (verify_request (JString "invalid-phone") (JString "12"))
           {| VerificationVerify.phone_number := JString "invalid-phone";
              VerificationVerify.verification_code := JString "12" |}
           eq_refl eq_refl eq_refl).
Defined.

(** X4: when the redeem call throws instead of returning, the verify
    handler answers 500 "Verification failed. Please try again."; the run
    reads the two environment variables, makes the one redeem call and logs
    the exception, and never reads a profile. *)
Theorem verify_thrown_redeem_answered_with_retry
    (client_config_error : string -> string -> option exn) (w : world)
    (req : Request VerificationVerify.VerificationConfirmRequest)
    (request : VerificationVerify.VerificationConfirmRequest) (e : exn) :
  method req = "POST" ->
  json_body req = Parsed request ->
  VerificationVerify.validatePhoneNumber (VerificationVerify.phone_number request) = true ->
  VerificationVerify.code_malformed (VerificationVerify.verification_code request) = false ->
  configured client_config_error w ->
  w _ (redeem_call w request) = Throws e ->
  exec w (VerificationVerify.handler client_config_error req)
  = Returns ({| status := 500;
         headers := corsHeaders ++ [("Content-Type", "application/json")];
         body := Json (Jobject [("error", Jstring "Verification failed. Please try again.")]) |})
  /\ calls w (VerificationVerify.handler client_config_error req)
     = [ Called (EnvGet "SUPABASE_URL");
         Called (EnvGet "SUPABASE_ANON_KEY");
         Called (VerifyOtp (anon_client w)
                   (VerificationVerify.phone_number request)
                   (VerificationVerify.verification_code request) "sms");
         Called (Console LogError "Unexpected error during verifyOtp:" (LoggedExn e)) ].
Proof.
  intros Hmethod Hbody Hphone Hcode Hconf Hredeem.
  rewrite (handler_redeems client_config_error w req request Hmethod Hbody Hphone Hcode Hconf).
  rewrite (calls_handler_redeems client_config_error w req request
             Hmethod Hbody Hphone Hcode Hconf).
  rewrite Hredeem. split; reflexivity.
Qed.

(** X4, witness: a provider whose redeem call throws a network error. *)
Lemma verify_thrown_redeem_answered_with_retry_witness :
  exec (world_of (redeem_answers (Throws network_error)))
    (VerificationVerify.handler sample_config_error
       (verify_request (JString "+1234567890") (JString "123456")))
  = Returns ({| status := 500;
         headers := corsHeaders ++ [("Content-Type", "application/json")];
         body := Json (Jobject [("error", Jstring "Verification failed. Please try again.")]) |}).
Proof.
  apply (verify_thrown_redeem_answered_with_retry sample_config_error
           (world_of (redeem_answers (Throws network_error)))
           (verify_request (JString "+1234567890") (JString "123456"))
           {| VerificationVerify.phone_number := JString "+1234567890";
              VerificationVerify.verification_code := JString "123456" |}
           network_error); reflexivity.
Defined.

(** The calls of a verify request whose body is not readable. *)
Lemma calls_verify_handler_unreadable cfg (w : world)
    (req : Request VerificationVerify.VerificationConfirmRequest) :
  method req = "POST" ->
  (forall request, json_body req <> Parsed request) ->
  exists e,
    calls w (VerificationVerify.handler cfg req)
    = [Called (Console LogError "Unexpected error:" (LoggedExn e))].
Proof.
  intros Hpost Hbody. unfold VerificationVerify.handler, VerificationVerify.read_request.
  rewrite Hpost. destruct (json_body req) as [e| |request]; try (eexists; reflexivity).
  now destruct (Hbody request).
Qed.

(** X5: the verify handler answers 200 to a request other than the
    preflight only when the request was well formed, the client was
    configured and the provider redeemed the code for this very phone
    number with no error, a session and a user; the body then carries that
    session and that user. *)
Theorem verify_success_only_after_redeem
    (client_config_error : string -> string -> option exn) (w : world)
    (req : Request VerificationVerify.VerificationConfirmRequest)
    (response : Response) :
  method req <> "OPTIONS" ->
  exec w (VerificationVerify.handler client_config_error req) = Returns response ->
  status response = 200 ->
  exists request r session user,
    method req = "POST"
    /\ json_body req = Parsed request
    /\ VerificationVerify.validatePhoneNumber (VerificationVerify.phone_number request) = true
    /\ VerificationVerify.code_malformed (VerificationVerify.verification_code request)
       = false
    /\ configured client_config_error w
    /\ w _ (redeem_call w request) = Returns r
    /\ auth_error r = None
    /\ data_session r = Some session
    /\ data_user r = Some user
    /\ response
       = {| status := 200;
            headers := corsHeaders ++ [("Content-Type", "application/json")];
            body :=
              Json
                (Jobject
                   [ ("message", Jstring "Phone verification successful");
                     ("session",
                       Jobject
                         [ ("access_token", Jstring (access_token session));
                           ("refresh_token", Jstring (refresh_token session));
                           ("expires_in", Jnumber (expires_in session));
                           ("token_type", Jstring (token_type session)) ]);
                     ("user",
                       Jobject
                         [ ("id", Jstring (user_id user));
                           ("phone", Jstring (user_phone user));
                           ("profile",
                             Jobject
                               [ ("email", column email (w _ (profile_read w session user)));
                                 ("first_name", column first_name (w _ (profile_read w session user)));
                                 ("last_name", column last_name (w _ (profile_read w session user)));
                                 ("phone", column phone (w _ (profile_read w session user)));
                                 ("correspondence_address",
                                   column correspondence_address (w _ (profile_read w session user))) ]) ]) ]) |}.
Proof.
  intros Hoptions Hexec Hstatus.
  destruct (String.eqb_spec (method req) "POST") as [Hpost|Hpost].
  2:{ destruct (verify_handler_not_post client_config_error w req Hpost) as [H _].
      rewrite H in Hexec. apply String.eqb_neq in Hoptions. rewrite Hoptions in Hexec.
      injection Hexec as <-. discriminate. }
  destruct (json_body req) as [e| |request] eqn:Hbody.
  - rewrite (verify_handler_unreadable client_config_error w req Hpost) in Hexec
      by (rewrite Hbody; discriminate).
    injection Hexec as <-. discriminate.
  - rewrite (verify_handler_unreadable client_config_error w req Hpost) in Hexec
      by (rewrite Hbody; discriminate).
    injection Hexec as <-. discriminate.
  - destruct (VerificationVerify.validatePhoneNumber
                (VerificationVerify.phone_number request)) eqn:Hphone.
    2:{ rewrite (handler_parsed client_config_error w req request Hpost Hbody) in Hexec.
        unfold VerificationVerify.verify in Hexec. rewrite Hphone in Hexec. cbn in Hexec.
        injection Hexec as <-. discriminate. }
    destruct (VerificationVerify.code_malformed
                (VerificationVerify.verification_code request)) eqn:Hcode.
    { rewrite (handler_parsed client_config_error w req request Hpost Hbody) in Hexec.
      unfold VerificationVerify.verify in Hexec. rewrite Hphone, Hcode in Hexec.
      cbn in Hexec. injection Hexec as <-. discriminate. }
    destruct (client_config_error (env_value w "SUPABASE_URL")
                (env_value w "SUPABASE_ANON_KEY")) as [e|] eqn:Hcfg.
    { rewrite (handler_parsed client_config_error w req request Hpost Hbody) in Hexec.
      destruct (exec_verify_unconfigured client_config_error w request e Hphone Hcode Hcfg)
        as [H _].
      rewrite H in Hexec. injection Hexec as <-. discriminate. }
    rewrite (handler_redeems client_config_error w req request Hpost Hbody Hphone Hcode Hcfg)
      in Hexec.
    destruct (w _ (redeem_call w request)) as [r|e] eqn:Hredeem.
    2:{ injection Hexec as <-. discriminate. }
    rewrite (exec_after_verifyOtp client_config_error w Hcfg) in Hexec.
    destruct (auth_error r) as [e|] eqn:Herror.
    { injection Hexec as <-. discriminate. }
    destruct (data_session r) as [session|] eqn:Hsession.
    2:{ injection Hexec as <-. discriminate. }
    destruct (data_user r) as [user|] eqn:Huser.
    2:{ injection Hexec as <-. discriminate. }
    injection Hexec as <-.
    exists request, r, session, user. repeat split; auto.
    unfold VerificationVerify.success_json, VerificationVerify.profile_json, json_response,
      json_of_session.
    now rewrite !field_column.
Qed.

(** X5, witness: the run of the documented test number and code. *)
Lemma verify_success_only_after_redeem_witness :
  exists request r session user,
    json_body (verify_request (JString "+1234567890") (JString "123456")) = Parsed request
    /\ world_of (verified_answers (PostgrestSuccess None)) _
         (redeem_call (world_of (verified_answers (PostgrestSuccess None))) request)
       = Returns r
    /\ auth_error r = None
    /\ data_session r = Some session
    /\ data_user r = Some user.
Proof.
  destruct (verify_success_only_after_redeem sample_config_error
              (world_of (verified_answers (PostgrestSuccess None)))
              (verify_request (JString "+1234567890") (JString "123456"))
              {| status := 200;
               headers := corsHeaders ++ [("Content-Type", "application/json")];
               body :=
                 Json
                   (Jobject
                      [ ("message", Jstring "Phone verification successful");
                        ("session",
                          Jobject
                            [ ("access_token", Jstring "access");
                              ("refresh_token", Jstring "refresh");
                              ("expires_in", Jnumber 3600);
                              ("token_type", Jstring "bearer") ]);
                        ("user",
                          Jobject
                            [ ("id", Jstring "7f1c");
                              ("phone", Jstring "1234567890");
                              ("profile",
                                Jobject
                                  [ ("email", Jnull);
                                    ("first_name", Jnull);
                                    ("last_name", Jnull);
                                    ("phone", Jnull);
                                    ("correspondence_address", Jnull) ]) ]) ]) |})
    as (request & r & session & user & _ & Hbody & _ & _ & _ & Hredeem & Herror & Hsession
        & Huser & _).
  - discriminate.
  - reflexivity.
  - reflexivity.
  - exists request, r, session, user. auto.
Defined.

(** X6: in every run of the verify handler the provider is asked to redeem
    at most once, with the anonymous client, the request's own phone number
    and code and the type [sms]; it is never asked to send a code; and a
    profile is read at most once, only after the redeem call returned no
    error, a session and a user, through a client whose [Authorization]
    header is [Bearer] and that session's access token, filtering on that
    user's id and selecting the five profile columns. *)
Theorem verify_calls_are_scoped
    (client_config_error : string -> string -> option exn) (w : world)
    (req : Request VerificationVerify.VerificationConfirmRequest) :
  let run := calls w (VerificationVerify.handler client_config_error req) in
  sends run = []
  /\ (redeems run = []
      \/ exists request,
           json_body req = Parsed request
           /\ redeems run
              = [ ({| supabaseUrl := env_value w "SUPABASE_URL";
                      supabaseKey := env_value w "SUPABASE_ANON_KEY";
                      options := None |},
                   VerificationVerify.phone_number request,
                   VerificationVerify.verification_code request,
                   "sms") ])
  /\ (profile_reads run = []
      \/ exists request r session user,
           json_body req = Parsed request
           /\ w _ (redeem_call w request) = Returns r
           /\ auth_error r = None
           /\ data_session r = Some session
           /\ data_user r = Some user
           /\ profile_reads run
              = [ ({| supabaseUrl := env_value w "SUPABASE_URL";
                      supabaseKey := env_value w "SUPABASE_ANON_KEY";
                      options :=
                        Some {| global_Authorization := "Bearer " ++ access_token session;
                                persistSession := false;
                                detectSessionInUrl := false |} |},
                   "email, first_name, last_name, phone, correspondence_address",
                   user_id user) ]).
Proof.
  intros run. subst run.
  destruct (String.eqb_spec (method req) "POST") as [Hpost|Hpost].
  2:{ destruct (verify_handler_not_post client_config_error w req Hpost) as [_ ->].
      cbn. auto. }
  destruct (json_body req) as [e| |request] eqn:Hbody.
  - destruct (calls_verify_handler_unreadable client_config_error w req Hpost) as [e' ->];
      [rewrite Hbody; discriminate|]. cbn. auto.
  - destruct (calls_verify_handler_unreadable client_config_error w req Hpost) as [e' ->];
      [rewrite Hbody; discriminate|]. cbn. auto.
  - destruct (VerificationVerify.validatePhoneNumber
                (VerificationVerify.phone_number request)) eqn:Hphone.
    2:{ rewrite (calls_handler_parsed client_config_error w req request Hpost Hbody).
        unfold VerificationVerify.verify. rewrite Hphone. cbn. auto. }
    destruct (VerificationVerify.code_malformed
                (VerificationVerify.verification_code request)) eqn:Hcode.
    { rewrite (calls_handler_parsed client_config_error w req request Hpost Hbody).
      unfold VerificationVerify.verify. rewrite Hphone, Hcode. cbn. auto. }
    destruct (client_config_error (env_value w "SUPABASE_URL")
                (env_value w "SUPABASE_ANON_KEY")) as [e|] eqn:Hcfg.
    { rewrite (calls_handler_parsed client_config_error w req request Hpost Hbody).
      destruct (exec_verify_unconfigured client_config_error w request e Hphone Hcode Hcfg)
        as [-> ->].
      cbn. auto. }
    rewrite (calls_handler_redeems client_config_error w req request
               Hpost Hbody Hphone Hcode Hcfg).
    destruct (w _ (redeem_call w request)) as [r|e] eqn:Hredeem.
    2:{ cbn. split; [reflexivity|]. split; [right; exists request; auto | auto]. }
    rewrite (calls_after_verifyOtp client_config_error w r Hcfg).
    destruct (auth_error r) as [e|] eqn:Herror.
    { cbn. split; [reflexivity|]. split; [right; exists request; auto | auto]. }
    destruct (data_session r) as [session|] eqn:Hsession.
    2:{ cbn. split; [reflexivity|]. split; [right; exists request; auto | auto]. }
    destruct (data_user r) as [user|] eqn:Huser.
    2:{ cbn. split; [reflexivity|]. split; [right; exists request; auto | auto]. }
    destruct (response_error (w _ (profile_read w session user))); cbn;
      (split; [reflexivity|]); (split; [right; exists request; auto|]);
      right; exists request, r, session, user; repeat split; auto.
Qed.


(** ** Further properties of the start handler *)


(** X9: a request whose method is not POST never reaches the body of either
    handler: [OPTIONS] is answered [ok] with the CORS headers, any other
    method 405 "Method not allowed", whatever the body holds, and no call
    is made. *)
Theorem other_methods_never_reach_the_body
    (client_config_error : string -> string -> option exn) (w : world)
    (sreq : Request VerificationStart.VerificationRequest)
    (vreq : Request VerificationVerify.VerificationConfirmRequest) :
  method sreq <> "POST" ->
  method vreq <> "POST" ->
  (exec w (VerificationStart.handler client_config_error sreq)
   = Returns (if (method sreq =? "OPTIONS")%string
              then {| status := 200; headers := corsHeaders; body := Text "ok" |}
              else {| status := 405;
         headers := corsHeaders ++ [("Content-Type", "application/json")];
         body := Json (Jobject [("error", Jstring "Method not allowed")]) |})
   /\ calls w (VerificationStart.handler client_config_error sreq) = [])
  /\ (exec w (VerificationVerify.handler client_config_error vreq)
      = Returns (if (method vreq =? "OPTIONS")%string
                 then {| status := 200; headers := corsHeaders; body := Text "ok" |}
                 else {| status := 405;
         headers := corsHeaders ++ [("Content-Type", "application/json")];
         body := Json (Jobject [("error", Jstring "Method not allowed")]) |})
      /\ calls w (VerificationVerify.handler client_config_error vreq) = []).
Proof.
  intros Hs Hv. split.
  - apply (start_handler_not_post client_config_error w sreq Hs).
  - apply (verify_handler_not_post client_config_error w vreq Hv).
Qed.

(** X9, witness: a GET with a body that is no JSON, at either endpoint. *)
Lemma other_methods_never_reach_the_body_witness :
  exec (world_of quiet_answers)
    (VerificationStart.handler sample_config_error
       {| method := "GET"; json_body := Unparseable syntax_error |})
  = Returns ({| status := 405;
         headers := corsHeaders ++ [("Content-Type", "application/json")];
         body := Json (Jobject [("error", Jstring "Method not allowed")]) |}).
Proof.
  apply (other_methods_never_reach_the_body sample_config_error (world_of quiet_answers)
           {| method := "GET"; json_body := Unparseable syntax_error |}
           {| method := "GET"; json_body := Unparseable syntax_error |});
    discriminate.
Defined.

(** X10: either handler answers every request in every world: no exception
    escapes it, the status is 200, 400, 405 or 500, and the two CORS
    headers are among the headers of the response. *)
Theorem handlers_always_answer
    (client_config_error : string -> string -> option exn) (w : world)
    (sreq : Request VerificationStart.VerificationRequest)
    (vreq : Request VerificationVerify.VerificationConfirmRequest) :
  (exists response,
      exec w (VerificationStart.handler client_config_error sreq) = Returns response
      /\ In (status response) [200; 400; 405; 500]
      /\ incl corsHeaders (headers response))
  /\ (exists response,
         exec w (VerificationVerify.handler client_config_error vreq) = Returns response
         /\ In (status response) [200; 400; 405; 500]
         /\ incl corsHeaders (headers response)).
Proof.
  assert (forall n, handler_status n = true -> In n [200; 400; 405; 500]) as Hstatus.
  { intros n H. unfold handler_status in H.
    repeat (apply orb_true_iff in H; destruct H as [H|H]);
      apply Nat.eqb_eq in H; subst; simpl; auto. }
  split.
  - destruct (start_handler_response_shape client_config_error w sreq)
      as (response & Hexec & Hs & Hcors).
    exists response. repeat split; auto.
  - destruct (verify_handler_response_shape client_config_error w vreq)
      as (response & Hexec & Hs & Hcors).
    exists response. repeat split; auto.
Qed.

(** The validator of the start handler calls the phone library and the
    console only. *)
Lemma validate_with_library_calls_stay_local (w : world) s :
  sends (calls w (VerificationStart.validate_with_library s)) = []
  /\ redeems (calls w (VerificationStart.validate_with_library s)) = []
  /\ profile_reads (calls w (VerificationStart.validate_with_library s)) = [].
Proof.
  unfold VerificationStart.validate_with_library. cbn.
  destruct (w _ (ParsePhoneNumber s)) as [[pn|]|e]; cbn;
    try (destruct (VerificationStart.isLikelyTestNumber s); cbn; auto).
  all: destruct (w _ (PhoneNumberIsValid pn)) as [[|]|e]; cbn;
    try (destruct (VerificationStart.isLikelyTestNumber s); cbn; auto).
  all: destruct (w _ (IsValidPhoneNumber s)) as [[|]|e]; cbn;
    destruct (VerificationStart.isLikelyTestNumber s); cbn; auto.
Qed.

Lemma validator_calls_stay_local (w : world) phone :
  sends (calls w (VerificationStart.validatePhoneNumber phone)) = []
  /\ redeems (calls w (VerificationStart.validatePhoneNumber phone)) = []
  /\ profile_reads (calls w (VerificationStart.validatePhoneNumber phone)) = [].
Proof.
  destruct phone as [| |s]; cbn; auto.
  destruct (negb (s =? "")%string); cbn; auto.
  destruct (String.prefix "+" s); cbn; auto.
  apply validate_with_library_calls_stay_local.
Qed.

(** X11: when the phone number is accepted, the client is configured and
    the provider's send call returns no error, the start handler answers
    200 with the message "Verification code sent successfully" and the
    phone number of the request, a string, echoed unchanged; the provider
    was asked once, with that phone number. *)
Theorem start_success_response
    (client_config_error : string -> string -> option exn) (w : world)
    (req : Request VerificationStart.VerificationRequest)
    (request : VerificationStart.VerificationRequest)
    (v : VerificationStart.validation) (r : OtpResponse) :
  method req = "POST" ->
  json_body req = Parsed request ->
  exec w (VerificationStart.validatePhoneNumber (VerificationStart.phone_number request))
  = Returns v ->
  VerificationStart.isValid v = true ->
  configured client_config_error w ->
  w _ (send_call w request) = Returns r ->
  otp_error r = None ->
  exists s,
    VerificationStart.phone_number request = JString s
    /\ exec w (VerificationStart.handler client_config_error req)
       = Returns
           {| status := 200;
              headers := corsHeaders ++ [("Content-Type", "application/json")];
              body := Json (Jobject [ ("message", Jstring "Verification code sent successfully");
                                      ("phone_number", Jstring s) ]) |}
    /\ sends (calls w (VerificationStart.handler client_config_error req))
       = [(anon_client w, JString s)].
Proof.
  intros Hmethod Hbody Hv Hvalid Hconf Hsend Herror.
  destruct (validatePhoneNumber_valid_is_string w _ v Hv Hvalid) as (s & Hs & Hprefix).
  exists s. split; [assumption|].
  rewrite (start_sends client_config_error w req request Hmethod Hbody v Hv Hvalid Hconf).
  rewrite (calls_start_sends client_config_error w req request v Hmethod Hbody Hv Hvalid Hconf).
  rewrite Hsend, Herror, Hs. split; [reflexivity|].
  unfold sends. rewrite !flat_map_app. fold (sends (calls w
    (VerificationStart.validatePhoneNumber (VerificationStart.phone_number request)))).
  rewrite (proj1 (validator_calls_stay_local w _)).
  unfold send_call. rewrite Hs. reflexivity.
Qed.

(** X11, witness: the documented test number, a provider that sends. *)
Lemma start_success_response_witness :
  exists s,
    JString "+1234567890" = JString s
    /\ exec (world_of quiet_answers)
         (VerificationStart.handler sample_config_error (start_request (JString "+1234567890")))
       = Returns
           {| status := 200;
              headers := corsHeaders ++ [("Content-Type", "application/json")];
              body := Json (Jobject [ ("message", Jstring "Verification code sent successfully");
                                      ("phone_number", Jstring s) ]) |}
    /\ sends (calls (world_of quiet_answers)
                (VerificationStart.handler sample_config_error
                   (start_request (JString "+1234567890"))))
       = [(anon_client (world_of quiet_answers), JString s)].
Proof.
  exact (start_success_response sample_config_error (world_of quiet_answers)
           (start_request (JString "+1234567890"))
           {| VerificationStart.phone_number := JString "+1234567890" |}
           (VerificationStart.valid true) {| otp_error := None |}
           eq_refl eq_refl eq_refl eq_refl eq_refl eq_refl eq_refl).
Defined.

(** X12: in every run of the start handler the provider is never asked to
    redeem a code and no profile is read; it is asked to send a code at
    most once, and only after the validator accepted the phone number and
    [createClient] accepted the configuration, with the anonymous client
    and the phone number of the request. *)
Theorem start_sends_once_after_validation
    (client_config_error : string -> string -> option exn) (w : world)
    (req : Request VerificationStart.VerificationRequest) :
  let run := calls w (VerificationStart.handler client_config_error req) in
  redeems run = []
  /\ profile_reads run = []
  /\ (sends run = []
      \/ exists request v,
           json_body req = Parsed request
           /\ exec w (VerificationStart.validatePhoneNumber
                        (VerificationStart.phone_number request)) = Returns v
           /\ VerificationStart.isValid v = true
           /\ configured client_config_error w
           /\ sends run
              = [ ({| supabaseUrl := env_value w "SUPABASE_URL";
                      supabaseKey := env_value w "SUPABASE_ANON_KEY";
                      options := None |},
                   VerificationStart.phone_number request) ]).
Proof.
  intros run. subst run.
  destruct (String.eqb_spec (method req) "POST") as [Hpost|Hpost].
  2:{ destruct (start_handler_not_post client_config_error w req Hpost) as [_ ->].
      cbn. auto. }
  destruct (json_body req) as [e| |request] eqn:Hbody.
  - unfold VerificationStart.handler, VerificationStart.read_request.
    rewrite Hpost, Hbody. cbn. auto.
  - unfold VerificationStart.handler, VerificationStart.read_request.
    rewrite Hpost, Hbody. cbn. auto.
  - destruct (validatePhoneNumber_returns w (VerificationStart.phone_number request))
      as [v Hv].
    destruct (validator_calls_stay_local w (VerificationStart.phone_number request))
      as (Hsends & Hredeems & Hreads).
    destruct (VerificationStart.isValid v) eqn:Hvalid.
    2:{ destruct (start_rejected client_config_error w req request Hpost Hbody v Hv Hvalid)
          as [_ ->].
        auto. }
    destruct (client_config_error (env_value w "SUPABASE_URL")
                (env_value w "SUPABASE_ANON_KEY")) as [e|] eqn:Hcfg.
    { rewrite (calls_start_handler_parsed client_config_error w req request Hpost Hbody).
      destruct (exec_start_unconfigured client_config_error w request v e Hv Hvalid Hcfg)
        as [-> ->].
      unfold redeems, profile_reads, sends in *. rewrite !flat_map_app.
      rewrite Hsends, Hredeems, Hreads. cbn. auto. }
    rewrite (calls_start_sends client_config_error w req request v Hpost Hbody Hv Hvalid Hcfg).
    unfold redeems, profile_reads, sends in *. rewrite !flat_map_app.
    rewrite Hsends, Hredeems, Hreads. unfold send_call, anon_client.
    destruct (w _ (SignInWithOtp _ _)) as [r|e]; [destruct (otp_error r)|]; cbn;
      (split; [reflexivity|]); (split; [reflexivity|]);
      right; exists request, v; auto.
Qed.

(** X13: the start handler answers 200 to a request other than the
    preflight only when the validator accepted the phone number, the client
    was configured and the provider's send call returned without error. *)
Theorem start_success_only_after_send
    (client_config_error : string -> string -> option exn) (w : world)
    (req : Request VerificationStart.VerificationRequest) (response : Response) :
  method req <> "OPTIONS" ->
  exec w (VerificationStart.handler client_config_error req) = Returns response ->
  status response = 200 ->
  exists request v r,
    method req = "POST"
    /\ json_body req = Parsed request
    /\ exec w (VerificationStart.validatePhoneNumber
                 (VerificationStart.phone_number request)) = Returns v
    /\ VerificationStart.isValid v = true
    /\ configured client_config_error w
    /\ w _ (send_call w request) = Returns r
    /\ otp_error r = None.
Proof.
  intros Hoptions Hexec Hstatus.
  destruct (String.eqb_spec (method req) "POST") as [Hpost|Hpost].
  2:{ destruct (start_handler_not_post client_config_error w req Hpost) as [H _].
      rewrite H in Hexec. apply String.eqb_neq in Hoptions. rewrite Hoptions in Hexec.
      injection Hexec as <-. discriminate. }
  destruct (json_body req) as [e| |request] eqn:Hbody.
  - rewrite (start_handler_unreadable client_config_error w req Hpost) in Hexec
      by (rewrite Hbody; discriminate).
    injection Hexec as <-. discriminate.
  - rewrite (start_handler_unreadable client_config_error w req Hpost) in Hexec
      by (rewrite Hbody; discriminate).
    injection Hexec as <-. discriminate.
  - destruct (validatePhoneNumber_returns w (VerificationStart.phone_number request))
      as [v Hv].
    destruct (VerificationStart.isValid v) eqn:Hvalid.
    2:{ destruct (start_rejected client_config_error w req request Hpost Hbody v Hv Hvalid)
          as [H _].
        rewrite H in Hexec. injection Hexec as <-. discriminate. }
    destruct (client_config_error (env_value w "SUPABASE_URL")
                (env_value w "SUPABASE_ANON_KEY")) as [e|] eqn:Hcfg.
    { rewrite (start_handler_parsed client_config_error w req request Hpost Hbody) in Hexec.
      destruct (exec_start_unconfigured client_config_error w request v e Hv Hvalid Hcfg)
        as [H _].
      rewrite H in Hexec. injection Hexec as <-. discriminate. }
    rewrite (start_sends client_config_error w req request Hpost Hbody v Hv Hvalid Hcfg)
      in Hexec.
    destruct (w _ (send_call w request)) as [r|e] eqn:Hsend.
    2:{ injection Hexec as <-. discriminate. }
    destruct (otp_error r) as [e|] eqn:Herror.
    { injection Hexec as <-. discriminate. }
    exists request, v, r. repeat split; auto.
Qed.

(** X13, witness: the run of the documented test number. *)
Lemma start_success_only_after_send_witness :
  exists request v r,
    method (start_request (JString "+1234567890")) = "POST"
    /\ json_body (start_request (JString "+1234567890")) = Parsed request
    /\ exec (world_of quiet_answers)
         (VerificationStart.validatePhoneNumber (VerificationStart.phone_number request))
       = Returns v
    /\ VerificationStart.isValid v = true
    /\ configured sample_config_error (world_of quiet_answers)
    /\ world_of quiet_answers _ (send_call (world_of quiet_answers) request) = Returns r
    /\ otp_error r = None.
Proof.
  apply (start_success_only_after_send sample_config_error (world_of quiet_answers)
           (start_request (JString "+1234567890"))
           {| status := 200;
              headers := corsHeaders ++ [("Content-Type", "application/json")];
              body :=
                Json (Jobject [ ("message", Jstring "Verification code sent successfully");
                                ("phone_number", Jstring "+1234567890") ]) |}).
  - discriminate.
  - reflexivity.
  - reflexivity.
Defined.




(** X15: a start request whose phone number is missing, [null] or the empty
    string is answered 400 "Phone number is required", and one whose phone
    number is a non-empty string without a leading [+] is answered 400
    "Phone number must include country code (start with +)"; in both cases
    the handler makes no call at all: neither the phone library nor the
    provider is asked. *)
Theorem start_rejects_before_asking_the_library
    (client_config_error : string -> string -> option exn) (w : world)
    (req : Request VerificationStart.VerificationRequest)
    (request : VerificationStart.VerificationRequest) :
  method req = "POST" ->
  json_body req = Parsed request ->
  match VerificationStart.phone_number request with
  | JString s => String.prefix "+" s = false
  | JUndefined | JNull => True
  end ->
  exec w (VerificationStart.handler client_config_error req)
  = Returns
      {| status := 400;
         headers := corsHeaders ++ [("Content-Type", "application/json")];
         body :=
           Json
             (Jobject
                [ ("error",
                    Jstring
                      match VerificationStart.phone_number request with
                      | JString (String _ _) =>
                          "Phone number must include country code (start with +)"
                      | JString EmptyString | JUndefined | JNull => "Phone number is required"
                      end) ]) |}
  /\ calls w (VerificationStart.handler client_config_error req) = [].
Proof.
  intros Hmethod Hbody Hphone.
  rewrite (start_handler_parsed client_config_error w req request Hmethod Hbody).
  rewrite (calls_start_handler_parsed client_config_error w req request Hmethod Hbody).
  unfold VerificationStart.start.
  destruct (VerificationStart.phone_number request) as [| |[|c s]]; cbn; auto.
  cbn in Hphone. rewrite Hphone. cbn. auto.
Qed.

(** X15, witness: a body without [phone_number]. *)
Lemma start_rejects_before_asking_the_library_witness :
  exec (world_of quiet_answers)
    (VerificationStart.handler sample_config_error (start_request JUndefined))
  = Returns ({| status := 400;
         headers := corsHeaders ++ [("Content-Type", "application/json")];
         body := Json (Jobject [("error", Jstring "Phone number is required")]) |})
  /\ calls (world_of quiet_answers)
       (VerificationStart.handler sample_config_error (start_request JUndefined)) = [].
Proof.
  exact (start_rejects_before_asking_the_library sample_config_error (world_of quiet_answers)
           (start_request JUndefined)
           {| VerificationStart.phone_number := JUndefined |} eq_refl eq_refl I).
Defined.

(** ** Where the two phone checks can part *)










(** ** Row level security, the update trigger and the cascade *)

Lemma is_owner_id uid row : policies.is_owner uid row = true <-> uid = Some (public.id row).
Proof.
  unfold policies.is_owner. destruct uid as [u|].
  - rewrite String.eqb_eq. split; [now intros -> | now intros [= ->]].
  - split; discriminate.
Qed.

Lemma permitted_select uid row :
  policies.permitted (policies.for_select policies.profiles_policies) uid row
  = policies.is_owner uid row.
Proof. cbn. apply orb_false_r. Qed.

Lemma reached_by_update_owner uid condition row :
  policies.reached_by_update uid condition row = policies.is_owner uid row && condition row.
Proof.
  unfold policies.reached_by_update. cbn. rewrite !orb_false_r.
  now destruct (policies.is_owner uid row).
Qed.

(** The number of rows with a key depends on the keys of the table only. *)
Lemma rows_with_id_keys i (t1 t2 : list public.profiles) :
  map public.id t1 = map public.id t2 ->
  public.rows_with_id i t1 = public.rows_with_id i t2.
Proof.
  unfold public.rows_with_id. revert t2.
  induction t1 as [|r1 t1 IH]; intros [|r2 t2] H; try discriminate; [reflexivity|].
  simpl in H. injection H as Hid Hrest. simpl. rewrite Hid.
  destruct (public.id r2 =? i)%string; simpl; auto.
Qed.

(** An update that goes through leaves every key where it was. *)
Lemma update_as_keeps_keys uid now condition assign table table' :
  policies.update_as uid now condition assign table = Some table' ->
  map public.id table' = map public.id table.
Proof.
  unfold policies.update_as.
  destruct (forallb _ table) eqn:Hcheck; [|discriminate].
  intros [= <-]. rewrite forallb_forall in Hcheck.
  rewrite map_map. apply map_ext_in. intros row Hin.
  specialize (Hcheck row Hin).
  destruct (policies.reached_by_update uid condition row) eqn:Hreached; [|reflexivity].
  cbn [negb orb] in Hcheck. cbn in Hcheck. rewrite orb_false_r in Hcheck.
  rewrite reached_by_update_owner in Hreached. apply andb_true_iff in Hreached.
  destruct Hreached as [Hold _].
  apply is_owner_id in Hold, Hcheck. cbn in Hcheck. cbn. congruence.
Qed.

Lemma delete_as_nothing uid condition table :
  policies.delete_as uid condition table = table.
Proof.
  unfold policies.delete_as. cbn. induction table as [|row table IH]; [reflexivity|].
  cbn. rewrite andb_false_r. cbn. now rewrite IH.
Qed.

(** A table with rows taken out keeps its primary key. *)
Lemma primary_key_filter (keep : public.profiles -> bool) (table : list public.profiles) :
  public.primary_key table -> public.primary_key (filter keep table).
Proof.
  unfold public.primary_key. induction table as [|row table IH]; simpl; [auto|].
  intros Hkey. inversion Hkey as [|? ? Hnew Hrest]; subst.
  destruct (keep row); simpl; [|auto].
  constructor; [|auto]. intros Hin. apply Hnew.
  apply in_map_iff in Hin. destruct Hin as (other & Hid & Hin).
  apply filter_In in Hin. apply in_map_iff. exists other. tauto.
Qed.

Lemma rows_with_id_filter_other i j (table : list public.profiles) :
  i <> j ->
  public.rows_with_id i (filter (fun row => negb (public.id row =? j)%string) table)
  = public.rows_with_id i table.
Proof.
  intros Hne. unfold public.rows_with_id.
  induction table as [|row table IH]; [reflexivity|]. simpl.
  destruct (String.eqb_spec (public.id row) j) as [Hj|Hj]; simpl.
  - destruct (String.eqb_spec (public.id row) i) as [Hi|Hi]; [congruence | exact IH].
  - destruct (public.id row =? i)%string; simpl; now rewrite IH.
Qed.

Lemma present_has_row i (table : list public.profiles) :
  public.rows_with_id i table = 1 -> public.conflict i table = true.
Proof.
  intros H. destruct (public.conflict i table) eqn:Hc; [reflexivity|].
  apply no_conflict_no_row in Hc. apply rows_with_id_absent in Hc. lia.
Qed.

(** Under the invariant no insert of a caller goes through: the identity
    the row must reference has its profile row already. *)
Lemma insert_as_fails uid row db :
  public.one_profile_per_identity db -> policies.insert_as uid row db = None.
Proof.
  intros [Hkey Hone]. unfold policies.insert_as.
  destruct (policies.permitted _ uid row); [|reflexivity]. cbn [andb].
  destruct (existsb _ (public.auth_users db)) eqn:Huser; [|now rewrite andb_false_r].
  apply existsb_exists in Huser. destruct Huser as (u & Hin & Hid).
  apply String.eqb_eq in Hid. specialize (Hone u Hin). rewrite Hid in Hone.
  now rewrite (present_has_row _ _ Hone).
Qed.

Lemma step_keeps_invariant db db' :
  profiles_invariant db -> policies.step db db' -> profiles_invariant db'.
Proof.
  intros [Hone Hfk] Hstep.
  destruct Hstep as [now new | i | uid row db' Hinsert
                     | uid now condition assign table' Hupdate | uid condition].
  - split; [now apply insert_auth_user_keeps_one_profile_per_identity|].
    unfold policies.foreign_key, public.insert_auth_user in *.
    destruct (existsb _ (public.auth_users db)) eqn:Hexists; [assumption|].
    cbn [public.auth_users public.public_profiles public.handle_new_user fst].
    unfold public.insert_on_conflict_do_nothing.
    destruct (public.conflict _ (public.public_profiles db)).
    + intros row Hin. destruct (Hfk row Hin) as (u & Hu & Hid).
      exists u. split; [apply in_or_app; now left | assumption].
    + intros row Hin. apply in_app_iff in Hin. destruct Hin as [Hin|[<-|[]]].
      * destruct (Hfk row Hin) as (u & Hu & Hid).
        exists u. split; [apply in_or_app; now left | assumption].
      * exists new. split; [apply in_or_app; right; now left | reflexivity].
  - destruct Hone as [Hkey Hone]. unfold policies.delete_auth_user. split; [split|].
    + cbn [public.public_profiles]. now apply primary_key_filter.
    + cbn [public.auth_users public.public_profiles]. intros u Hin.
      apply filter_In in Hin. destruct Hin as [Hin Hne].
      apply negb_true_iff, String.eqb_neq in Hne.
      rewrite rows_with_id_filter_other by assumption. now apply Hone.
    + unfold policies.foreign_key in *. cbn [public.auth_users public.public_profiles].
      intros row Hin. apply filter_In in Hin. destruct Hin as [Hin Hne].
      destruct (Hfk row Hin) as (u & Hu & Hid).
      exists u. split; [|assumption]. apply filter_In. split; [assumption|]. now rewrite Hid.
  - rewrite (insert_as_fails uid row db Hone) in Hinsert. discriminate.
  - pose proof (update_as_keeps_keys _ _ _ _ _ _ Hupdate) as Hkeys.
    destruct Hone as [Hkey Hone]. split; [split|].
    + unfold public.primary_key in *. cbn [public.public_profiles]. now rewrite Hkeys.
    + cbn [public.auth_users public.public_profiles]. intros u Hin.
      rewrite (rows_with_id_keys _ _ _ Hkeys). now apply Hone.
    + unfold policies.foreign_key in *. cbn [public.auth_users public.public_profiles].
      intros row Hin.
      assert (In (public.id row) (map public.id (public.public_profiles db))) as Hid
        by (rewrite <- Hkeys; now apply in_map).
      apply in_map_iff in Hid. destruct Hid as (old & Hold & Hin').
      destruct (Hfk old Hin') as (u & Hu & Hidu). exists u. split; [assumption | congruence].
  - rewrite delete_as_nothing. destruct db. split; assumption.
Qed.

(** X18: whatever the provider and the callers under row level security do
    to the two tables (identities created, with the trigger, or deleted,
    with the cascade; profile rows inserted, updated or deleted by callers),
    a database that had the primary key, exactly one profile row per
    identity and no profile row without identity still has them. *)
Theorem profiles_invariant_is_kept (db db' : public.database) :
  profiles_invariant db ->
  policies.steps db db' ->
  profiles_invariant db'.
Proof.
  intros Hinv Hsteps. induction Hsteps as [|db1 db2 Hsteps IH Hstep]; [assumption|].
  now apply (step_keeps_invariant db1).
Qed.

(** X18, witness: from the empty database, an identity is created and then
    updates its own profile. *)
Lemma profiles_invariant_is_kept_witness :
  profiles_invariant
    {| public.auth_users := [sample_identity];
       public.public_profiles :=
         [ {| public.id := "7f1c";
              public.first_name := None;
              public.last_name := None;
              public.email := Some "luiza@example.org";
              public.phone := Some "1234567890";
              public.correspondence_address := None;
              public.created_at := 1000%Z;
              public.updated_at := 2000%Z |} ] |}.
Proof.
  apply (profiles_invariant_is_kept empty_database).
  - split; [split|].
    + constructor.
    + intros u [].
    + intros row [].
  - apply (policies.steps_more empty_database
             (public.insert_auth_user 1000%Z sample_identity empty_database)).
    + apply (policies.steps_more empty_database empty_database).
      * apply policies.steps_none.
      * apply policies.identity_created.
    + apply (policies.profiles_updated
               (public.insert_auth_user 1000%Z sample_identity empty_database)
               (Some "7f1c") 2000%Z (fun _ => true)
               (fun row => public.new_row 1000%Z (public.id row)
                             (Some "luiza@example.org") (public.phone row))).
      reflexivity.
Defined.

Lemma select_as_filter uid condition table :
  policies.select_as uid condition table
  = filter (fun row => policies.is_owner uid row && condition row) table.
Proof.
  unfold policies.select_as. apply filter_ext. intros row. now rewrite permitted_select.
Qed.

Lemma filter_length_le {A} (p q : A -> bool) (l : list A) :
  (forall a, p a = true -> q a = true) ->
  List.length (filter p l) <= List.length (filter q l).
Proof.
  intros Hpq. induction l as [|a l IH]; simpl; [lia|].
  destruct (p a) eqn:Hp.
  - rewrite (Hpq a Hp). simpl. lia.
  - destruct (q a); simpl; lia.
Qed.

Lemma filter_none {A} (p : A -> bool) (l : list A) :
  (forall a, In a l -> p a = false) -> filter p l = [].
Proof.
  induction l as [|a l IH]; [reflexivity|]. intros H. simpl.
  rewrite (H a) by now left. apply IH. intros b Hb. apply H. now right.
Qed.

Lemma rows_with_id_le_1 i (table : list public.profiles) :
  public.primary_key table -> public.rows_with_id i table <= 1.
Proof.
  intros Hkey.
  destruct (in_dec string_dec i (map public.id table)) as [Hin|Hnot].
  - rewrite rows_with_id_present by assumption. lia.
  - rewrite rows_with_id_absent by assumption. lia.
Qed.

(** X19: a [select] on [public.profiles] shows a caller rows of its own
    identity only: every row returned is a row of the table that carries
    the caller's id and meets the condition; under the primary key at most
    one row is returned; and a caller without identity is shown nothing. *)
Theorem select_shows_own_row_only
    (uid : policies.caller) (condition : public.profiles -> bool)
    (table : list public.profiles) :
  (forall row, In row (policies.select_as uid condition table) ->
               uid = Some (public.id row) /\ In row table /\ condition row = true)
  /\ (public.primary_key table -> List.length (policies.select_as uid condition table) <= 1)
  /\ policies.select_as None condition table = [].
Proof.
  rewrite !select_as_filter. split; [|split].
  - intros row Hin. apply filter_In in Hin. destruct Hin as [Hin Hrow].
    apply andb_true_iff in Hrow. destruct Hrow as [Howner Hcond].
    apply is_owner_id in Howner. auto.
  - intros Hkey. destruct uid as [u|].
    + apply Nat.le_trans with (public.rows_with_id u table);
        [|now apply rows_with_id_le_1].
      unfold public.rows_with_id. apply filter_length_le.
      intros row Hrow. apply andb_true_iff in Hrow. destruct Hrow as [Howner _].
      apply is_owner_id in Howner. injection Howner as ->. apply String.eqb_refl.
    + clear Hkey. cbn. induction table; simpl; auto.
  - induction table; simpl; auto.
Qed.

(** X20: right after an identity with a new id is created, a [select] of
    that identity on its own id returns exactly one row: the one the
    trigger made, with the identity's email and phone, the other text
    columns [NULL] and both timestamps the time of creation. *)
Theorem new_identity_reads_fresh_profile
    (now : timestamptz) (new : auth.users) (db : public.database) :
  profiles_invariant db ->
  (forall u, In u (public.auth_users db) -> auth.id u <> auth.id new) ->
  policies.select_as (Some (auth.id new))
    (fun row => (public.id row =? auth.id new)%string)
    (public.public_profiles (public.insert_auth_user now new db))
  = [ {| public.id := auth.id new;
         public.first_name := None;
         public.last_name := None;
         public.email := auth.email new;
         public.phone := auth.phone new;
         public.correspondence_address := None;
         public.created_at := now;
         public.updated_at := now |} ].
Proof.
  intros [[Hkey Hone] Hfk] Hfresh.
  assert (existsb (fun u => (auth.id u =? auth.id new)%string) (public.auth_users db) = false)
    as Hnew.
  { apply not_true_iff_false. intros H. apply existsb_exists in H.
    destruct H as (u & Hin & Hid). apply String.eqb_eq in Hid. now apply (Hfresh u). }
  assert (forall row, In row (public.public_profiles db) -> public.id row <> auth.id new)
    as Hrows.
  { intros row Hin Hid. destruct (Hfk row Hin) as (u & Hu & Hidu).
    apply (Hfresh u Hu). congruence. }
  assert (public.conflict (auth.id new) (public.public_profiles db) = false) as Hconflict.
  { apply no_conflict_no_row. intros Hin. apply in_map_iff in Hin.
    destruct Hin as (row & Hid & Hin). now apply (Hrows row). }
  unfold public.insert_auth_user. rewrite Hnew.
  cbn [public.public_profiles public.handle_new_user fst].
  unfold public.insert_on_conflict_do_nothing.
  cbn [public.new_row public.id]. rewrite Hconflict.
  rewrite select_as_filter, filter_app.
  assert (filter (fun row => policies.is_owner (Some (auth.id new)) row
                             && (public.id row =? auth.id new)%string)
            (public.public_profiles db) = []) as ->.
  { apply filter_none. intros row Hin. apply Hrows in Hin.
    apply String.eqb_neq in Hin. cbn [policies.is_owner]. rewrite String.eqb_sym, Hin.
    reflexivity. }
  cbn. now rewrite String.eqb_refl.
Qed.

(** X20, witness: the first identity of an empty database. *)
Lemma new_identity_reads_fresh_profile_witness :
  policies.select_as (Some "7f1c") (fun row => (public.id row =? "7f1c")%string)
    (public.public_profiles (public.insert_auth_user 1000%Z sample_identity empty_database))
  = [ {| public.id := "7f1c";
         public.first_name := None;
         public.last_name := None;
         public.email := None;
         public.phone := Some "1234567890";
         public.correspondence_address := None;
         public.created_at := 1000%Z;
         public.updated_at := 1000%Z |} ].
Proof.
  apply (new_identity_reads_fresh_profile 1000%Z sample_identity empty_database).
  - split; [split|].
    + constructor.
    + intros u [].
    + intros row [].
  - intros u [].
Defined.

(** X21: an [update] of a caller that goes through changes rows of the
    caller's own identity only, and never their id: row by row, the new
    table holds the old row as it was, or, for a row of the caller that met
    the condition, the row with the assignments made and [updated_at] set
    to the time of the update, whatever the assignments said about it.  A
    caller without identity changes nothing. *)
Theorem update_changes_own_row_only
    (uid : policies.caller) (now : timestamptz)
    (condition : public.profiles -> bool) (assign : public.profiles -> public.profiles)
    (table table' : list public.profiles) :
  policies.update_as uid now condition assign table = Some table' ->
  Forall2
    (fun old new =>
       new = old
       \/ (uid = Some (public.id old)
           /\ condition old = true
           /\ new = policies.set_updated_at now (assign old)
           /\ public.id new = public.id old
           /\ public.updated_at new = now))
    table table'
  /\ (uid = None -> table' = table).
Proof.
  intros Hupdate.
  pose proof (update_as_keeps_keys _ _ _ _ _ _ Hupdate) as Hkeys.
  unfold policies.update_as in Hupdate.
  destruct (forallb _ table) eqn:Hcheck; [|discriminate].
  injection Hupdate as <-. clear Hcheck. split.
  - induction table as [|row table IH]; [constructor|].
    cbn [map] in *. injection Hkeys as Hid Hrest.
    constructor; [|now apply IH].
    destruct (policies.reached_by_update uid condition row) eqn:Hreached; [|now left].
    right. rewrite reached_by_update_owner in Hreached.
    apply andb_true_iff in Hreached. destruct Hreached as [Howner Hcond].
    apply is_owner_id in Howner. repeat split; auto.
  - intros ->. rewrite <- (map_id table) at 2. apply map_ext. intros row.
    now rewrite reached_by_update_owner.
Qed.

(** X21, witness: an identity sets its first name, and tries to backdate
    [updated_at]. *)
Lemma update_changes_own_row_only_witness :
  Forall2
    (fun old new =>
       new = old
       \/ (Some "7f1c" = Some (public.id old)
           /\ true = true
           /\ new = policies.set_updated_at 2000%Z
                      {| public.id := public.id old;
                         public.first_name := Some "Luiza";
                         public.last_name := public.last_name old;
                         public.email := public.email old;
                         public.phone := public.phone old;
                         public.correspondence_address := public.correspondence_address old;
                         public.created_at := public.created_at old;
                         public.updated_at := 0%Z |}
           /\ public.id new = public.id old
           /\ public.updated_at new = 2000%Z))
    [ public.new_row 1000%Z "7f1c" None (Some "1234567890");
      public.new_row 1000%Z "9a2e" None (Some "1234567891") ]
    [ {| public.id := "7f1c";
         public.first_name := Some "Luiza";
         public.last_name := None;
         public.email := None;
         public.phone := Some "1234567890";
         public.correspondence_address := None;
         public.created_at := 1000%Z;
         public.updated_at := 2000%Z |};
      public.new_row 1000%Z "9a2e" None (Some "1234567891") ].
Proof.
  apply (update_changes_own_row_only (Some "7f1c") 2000%Z (fun _ => true)
           (fun old => {| public.id := public.id old;
                          public.first_name := Some "Luiza";
                          public.last_name := public.last_name old;
                          public.email := public.email old;
                          public.phone := public.phone old;
                          public.correspondence_address := public.correspondence_address old;
                          public.created_at := public.created_at old;
                          public.updated_at := 0%Z |})).
  reflexivity.
Defined.

(** X22: under row level security no caller adds or removes a profile row.
    In a database with one profile row per identity every [insert] of a
    caller fails, on the policy, on the foreign key or on the primary key;
    and a [delete] of a caller, for which no policy is declared, removes no
    row, whatever its condition. *)
Theorem callers_never_add_or_remove_profiles
    (uid : policies.caller) (row : public.profiles)
    (condition : public.profiles -> bool) (db : public.database) :
  public.one_profile_per_identity db ->
  policies.insert_as uid row db = None
  /\ policies.delete_as uid condition (public.public_profiles db) = public.public_profiles db.
Proof.
  intros Hone. split.
  - now apply insert_as_fails.
  - apply delete_as_nothing.
Qed.

(** X22, witness: the owner of the one profile row tries both. *)
Lemma callers_never_add_or_remove_profiles_witness :
  policies.insert_as (Some "7f1c") (public.new_row 3000%Z "7f1c" None None)
    (public.insert_auth_user 1000%Z sample_identity empty_database) = None
  /\ policies.delete_as (Some "7f1c") (fun _ => true)
       (public.public_profiles (public.insert_auth_user 1000%Z sample_identity empty_database))
     = public.public_profiles (public.insert_auth_user 1000%Z sample_identity empty_database).
Proof.
  apply (callers_never_add_or_remove_profiles (Some "7f1c")
           (public.new_row 3000%Z "7f1c" None None) (fun _ => true)
           (public.insert_auth_user 1000%Z sample_identity empty_database)).
  split.
  - repeat constructor. intros [].
  - intros u [<-|[]]. reflexivity.
Defined.

(** ** The utilities of the edge tests *)

Lemma prefix_plus_append t : String.prefix "+" ("+" ++ t)%string = true.
Proof. simpl. now destruct t. Qed.

(** X23: [normalizePhoneKey] returns a key that starts with [+], leaves such a
    key as it is, so that normalising twice is normalising once, and puts
    one [+] before any other key; taking the first [+] away again, as
    [deleteUserByPhone] does before it looks for the user, gives a key
    without [+] in front back as it was. *)
Theorem normalizePhoneKey_spec (key : string) :
  String.prefix "+" (TestUtils.normalizePhoneKey key) = true
  /\ TestUtils.normalizePhoneKey (TestUtils.normalizePhoneKey key)
     = TestUtils.normalizePhoneKey key
  /\ (String.prefix "+" key = true -> TestUtils.normalizePhoneKey key = key)
  /\ (String.prefix "+" key = false ->
      TestUtils.normalizePhoneKey key = String "+" key
      /\ TestUtils.normalizedPhone (TestUtils.normalizePhoneKey key) = key).
Proof.
  unfold TestUtils.normalizePhoneKey.
  destruct (String.prefix "+" key) eqn:Hprefix.
  - rewrite Hprefix. repeat split; auto; discriminate.
  - rewrite prefix_plus_append. repeat split; auto; discriminate.
Qed.

Lemma length_append (s t : string) :
  String.length (s ++ t)%string = String.length s + String.length t.
Proof. induction s as [|c s IH]; simpl; auto. Qed.

Lemma substring_0_append (s t : string) :
  String.substring 0 (String.length s) (s ++ t)%string = s.
Proof.
  induction s as [|c s IH]; simpl.
  - now destruct t.
  - now rewrite IH.
Qed.

Lemma substring_skip_append (s t : string) n :
  String.substring (String.length s) n (s ++ t)%string = String.substring 0 n t.
Proof. induction s as [|c s IH]; simpl; auto. Qed.

Lemma append_assoc (s t u : string) : ((s ++ t) ++ u)%string = (s ++ t ++ u)%string.
Proof. induction s as [|c s IH]; simpl; [reflexivity | now rewrite IH]. Qed.

Lemma substring_0_all (s : string) : String.substring 0 (String.length s) s = s.
Proof. induction s as [|c s IH]; simpl; [reflexivity | now rewrite IH]. Qed.

(** X24: [mask] prints no character of a value of at most eight characters,
    and of a longer value the first four and the last four only, with
    [...] between them: eleven characters whatever the value, the same for
    two values that differ in the middle alone. *)
Theorem mask_hides_the_middle (value : option string) :
  match value with
  | None => Runner.mask value = "(missing)"
  | Some v =>
      (v = "" -> Runner.mask value = "(missing)")
      /\ (1 <= String.length v <= 8 -> Runner.mask value = "***")
      /\ (forall first middle last : string,
             v = (first ++ middle ++ last)%string ->
             String.length first = 4 ->
             String.length last = 4 ->
             1 <= String.length middle ->
             Runner.mask value = (first ++ "..." ++ last)%string)
  end.
Proof.
  destruct value as [v|]; [|reflexivity]. split; [|split].
  - intros ->. reflexivity.
  - intros [Hlo Hhi]. unfold Runner.mask.
    destruct v as [|c v]; [simpl in Hlo; lia|]. cbn [String.eqb].
    apply Nat.leb_le in Hhi. now rewrite Hhi.
  - intros first middle last -> Hfirst Hlast Hmiddle. unfold Runner.mask.
    assert (String.length (first ++ middle ++ last)%string = 8 + String.length middle) as Hlen
        by (rewrite !length_append; lia).
    destruct ((first ++ middle ++ last)%string =? "")%string eqn:Hempty.
    { apply String.eqb_eq in Hempty. rewrite Hempty in Hlen. simpl in Hlen. lia. }
    assert ((String.length (first ++ middle ++ last)%string <=? 8) = false) as ->
        by (apply Nat.leb_gt; lia).
    unfold Runner.slice_first_4, Runner.slice_last_4. f_equal.
    + rewrite <- Hfirst. apply substring_0_append.
    + f_equal. rewrite Hlen.
      replace (8 + String.length middle - 4) with (String.length (first ++ middle)%string)
        by (rewrite length_append; lia).
      rewrite <- append_assoc, substring_skip_append, <- Hlast.
      apply substring_0_all.
Qed.
